(** * A shallow embedding of the KPI aggregation processor
    ([backend/business/kpis/processor.py]) and the properties of its
    scheduling, windowing, retention and upsert logic. *)

From Stdlib Require Import ZArith Lia List String Bool Permutation.
Import ListNotations.
Open Scope string_scope.
Open Scope Z_scope.
Open Scope list_scope.

(** ** Python results: a value or a raised exception, by class name. *)

Inductive result (A : Type) : Type :=
| Ok (a : A)
| Err (exn : string).
Arguments Ok {A} a.
Arguments Err {A} exn.

Definition rbind {A B} (r : result A) (f : A -> result B) : result B :=
  match r with Ok a => f a | Err e => Err e end.

Notation "x <-? r ;; k" := (rbind r (fun x => k))
  (at level 61, r at next level, right associativity).

Definition is_ok {A} (r : result A) : bool :=
  match r with Ok _ => true | Err _ => false end.

(** ** The proleptic Gregorian calendar on day numbers
    (day 0 is 1970-01-01), as Python's [datetime] computes it. *)

Definition is_leap (y : Z) : bool :=
  ((y mod 4 =? 0) && negb (y mod 100 =? 0)) || (y mod 400 =? 0).

Definition days_in_month (y m : Z) : Z :=
  if m =? 2 then (if is_leap y then 29 else 28)
  else if (m =? 4) || (m =? 6) || (m =? 9) || (m =? 11) then 30
  else 31.

(** Day of a 400-year era (eras start on March 1st) from the year of the
    era, the month and the day. *)
Definition doe_of_civil (yoe m d : Z) : Z :=
  let mp := if 2 <? m then m - 3 else m + 9 in
  let doy := (153 * mp + 2) / 5 + d - 1 in
  yoe * 365 + yoe / 4 - yoe / 100 + doy.

(** Year of the era, month and day from a day of the era. *)
Definition civil_of_doe (doe : Z) : Z * Z * Z :=
  let yoe := (doe - doe / 1460 + doe / 36524 - doe / 146096) / 365 in
  let doy := doe - (365 * yoe + yoe / 4 - yoe / 100) in
  let mp := (5 * doy + 2) / 153 in
  let d := doy - (153 * mp + 2) / 5 + 1 in
  let m := if mp <? 10 then mp + 3 else mp - 9 in
  (yoe, m, d).

Definition days_from_civil (y m d : Z) : Z :=
  let y' := if m <=? 2 then y - 1 else y in
  (y' / 400) * 146097 + doe_of_civil (y' mod 400) m d - 719468.

Definition civil_from_days (z : Z) : Z * Z * Z :=
  let z' := z + 719468 in
  let '(yoe, m, d) := civil_of_doe (z' mod 146097) in
  (yoe + (z' / 146097) * 400 + (if m <=? 2 then 1 else 0), m, d).

(** ** Periods *)

(** Modelled from the spec: [backend.business.period.Period] is not part
    of the sources. A period is "an opaque, comparable representation of
    now at some clock tick" exposing [year], [month], [day] and [weekday];
    it is represented by the number of hours since 1970-01-01T00:00, and
    compared as such. *)
Definition Period := Z.

Definition period_day_number (p : Period) : Z := p / 24.
Definition period_hour (p : Period) : Z := p mod 24.

Definition year (p : Period) : Z :=
  let '(y, _, _) := civil_from_days (period_day_number p) in y.
Definition month (p : Period) : Z :=
  let '(_, m, _) := civil_from_days (period_day_number p) in m.
Definition day (p : Period) : Z :=
  let '(_, _, d) := civil_from_days (period_day_number p) in d.

(** Modelled from the spec: Monday-based weekday, Monday = 1 ... Sunday = 7
    (1970-01-01 was a Thursday). *)
Definition weekday (p : Period) : Z := (period_day_number p + 3) mod 7 + 1.

(** Modelled from the spec: bucket labels ("a specific day, ISO week,
    month, or year"); equality of labels is equality of buckets. *)
Inductive label : Type :=
| LDay (y m d : Z)
| LWeek (iso_year week : Z)
| LMonth (y m : Z)
| LYear (y : Z).

Definition label_eq_dec (a b : label) : {a = b} + {a <> b}.
Proof. decide equality; apply Z.eq_dec. Defined.

Definition label_eqb (a b : label) : bool :=
  if label_eq_dec a b then true else false.

(** ISO week of a day number: the week of its Thursday. *)
Definition iso_week_label (dn : Z) : label :=
  let wd := (dn + 3) mod 7 + 1 in
  let thursday := dn + 4 - wd in
  let '(iy, _, _) := civil_from_days thursday in
  LWeek iy ((thursday - days_from_civil iy 1 1) / 7 + 1).

(** Modelled from the spec: [Period.get_truncated_value]. The processor
    only passes the four literals; any other granularity is modelled as
    raising like the two resolvers of the processor do. *)
Definition get_truncated_value (p : Period) (agg_kind : string) : result label :=
  if String.eqb agg_kind "D" then Ok (LDay (year p) (month p) (day p))
  else if String.eqb agg_kind "W" then Ok (iso_week_label (period_day_number p))
  else if String.eqb agg_kind "M" then Ok (LMonth (year p) (month p))
  else if String.eqb agg_kind "Y" then Ok (LYear (year p))
  else Err "AttributeError".

(** Modelled from the spec: [Period.get_shifted] with a
    [dateutil.relativedelta] of months and days: the month is moved first,
    the day of month clamped to the length of the target month, then the
    days are added; the hour is kept. *)
Record relativedelta := { rd_months : Z; rd_days : Z }.

Definition get_shifted (p : Period) (rd : relativedelta) : Period :=
  let '(y, m, d) := civil_from_days (period_day_number p) in
  let t := y * 12 + (m - 1) + rd_months rd in
  let y2 := if rd_months rd =? 0 then y else t / 12 in
  let m2 := if rd_months rd =? 0 then m else t mod 12 + 1 in
  let d2 := Z.min d (days_in_month y2 m2) in
  (days_from_civil y2 m2 d2 + rd_days rd) * 24 + period_hour p.

Definition rd_days_only (k : Z) : relativedelta := {| rd_months := 0; rd_days := k |}.
Definition rd_weeks (k : Z) : relativedelta := {| rd_months := 0; rd_days := 7 * k |}.
Definition rd_months_only (k : Z) : relativedelta := {| rd_months := k; rd_days := 0 |}.

(** ** Python's naive [datetime] at midnight, as a day number. *)

Definition MINYEAR := 1.
Definition MAXYEAR := 9999.

(** [datetime(year=y, month=m, day=d)]: raises [ValueError] on an
    out-of-range field. *)
Definition datetime (y m d : Z) : result Z :=
  if negb ((MINYEAR <=? y) && (y <=? MAXYEAR)) then Err "ValueError"
  else if negb ((1 <=? m) && (m <=? 12)) then Err "ValueError"
  else if negb ((1 <=? d) && (d <=? days_in_month y m)) then Err "ValueError"
  else Ok (days_from_civil y m d).

(** [dt + timedelta(days=k)]: raises [OverflowError] out of range. *)
Definition add_days (dt k : Z) : result Z :=
  let r := dt + k in
  if (days_from_civil MINYEAR 1 1 <=? r) && (r <=? days_from_civil MAXYEAR 12 31)
  then Ok r else Err "OverflowError".

(** [int(dt.timestamp())] for a naive [datetime] at midnight, the server's
    local zone taken as UTC. CPython converts a naive [datetime] through
    [local_to_seconds], which also converts the instant one day earlier
    ([max_fold_seconds]); that conversion raises [ValueError] ("year 0 is out
    of range") when the day before [dt] lies before 0001-01-01. *)
Definition timestamp (dt : Z) : result Z :=
  if dt - 1 <? days_from_civil MINYEAR 1 1 then Err "ValueError" else Ok (dt * 86400).

Record Timestamps := { start : Z; stop : Z }.

(** [Processor.get_timestamps] *)
Definition get_timestamps (agg_kind : string) (now : Period) : result Timestamps :=
  if String.eqb agg_kind "D" then
    start <-? datetime (year now) (month now) (day now) ;;
    start_ts <-? timestamp start ;;
    stop <-? add_days start 1 ;;
    stop_ts <-? timestamp stop ;;
    Ok {| start := start_ts; stop := stop_ts |}
  else if String.eqb agg_kind "W" then
    s0 <-? datetime (year now) (month now) (day now) ;;
    start <-? add_days s0 (1 - weekday now) ;;
    start_ts <-? timestamp start ;;
    stop <-? add_days start 7 ;;
    stop_ts <-? timestamp stop ;;
    Ok {| start := start_ts; stop := stop_ts |}
  else if String.eqb agg_kind "M" then
    start <-? datetime (year now) (month now) 1 ;;
    stop <-? datetime (year now) (month now + 1) 1 ;;
    start_ts <-? timestamp start ;;
    stop_ts <-? timestamp stop ;;
    Ok {| start := start_ts; stop := stop_ts |}
  else if String.eqb agg_kind "Y" then
    start <-? datetime (year now) 1 1 ;;
    stop <-? datetime (year now + 1) 1 1 ;;
    start_ts <-? timestamp start ;;
    stop_ts <-? timestamp stop ;;
    Ok {| start := start_ts; stop := stop_ts |}
  else Err "AttributeError".

(** [[now.get_shifted(rd(-delta)) for delta in range(0, n)]] *)
Definition shifted_periods (now : Period) (rd : Z -> relativedelta) (n : nat)
  : list Period :=
  map (fun delta => get_shifted now (rd (- Z.of_nat delta))) (seq 0 n).

(** [[p.get_truncated_value(agg_kind) for p in ps]] *)
Fixpoint truncate_all (ps : list Period) (agg_kind : string) : result (list label) :=
  match ps with
  | [] => Ok []
  | p :: ps' =>
      l <-? get_truncated_value p agg_kind ;;
      ls <-? truncate_all ps' agg_kind ;;
      Ok (l :: ls)
  end.

(** [Processor.get_aggregations_to_keep]; [None] is the keep-all value. *)
Definition get_aggregations_to_keep (agg_kind : string) (now : Period)
  : result (option (list label)) :=
  if String.eqb agg_kind "D" then
    ls <-? truncate_all (shifted_periods now rd_days_only 7) agg_kind ;; Ok (Some ls)
  else if String.eqb agg_kind "W" then
    ls <-? truncate_all (shifted_periods now rd_weeks 4) agg_kind ;; Ok (Some ls)
  else if String.eqb agg_kind "M" then
    ls <-? truncate_all (shifted_periods now rd_months_only 12) agg_kind ;; Ok (Some ls)
  else if String.eqb agg_kind "Y" then Ok None
  else Err "AttributeError".

(** ** Persistence, KPIs and the processor state *)

(** Modelled from the spec: [backend.business.kpis.kpi.Kpi], "identified
    by a stable unique identifier" with a computation of a numeric value for
    a granularity and a half-open window; with unchanged raw events it is a
    function of its arguments. *)
Record Kpi := { unique_id : Z; get_value : string -> Z -> Z -> Z }.

(** [backend.business.kpis.value.Value] *)
Record Value := { agg_value : label; kpi_value : Z }.

(** A persisted row: [(kpi_id, granularity, bucket_label, numeric_value)]. *)
Record Row := { row_kpi : Z; row_kind : string; row_label : label; row_val : Z }.

(** What the processor does, in order: each call of
    [compute_kpi_values_for_aggregation_kind] with its arguments, and each
    call of the persister. *)
Inductive Event :=
| ECompute (now : Period) (kpi_id : Z) (agg_kind : string)
| EGetValues (kpi_id : Z) (agg_kind : string)
| EDelete (kpi_id : Z) (agg_kind : string) (agg_value : label)
| EUpdate (kpi_id : Z) (agg_kind : string) (agg_value : label) (kpi_value : Z)
| EAdd (kpi_id : Z) (agg_kind : string) (agg_value : label) (kpi_value : Z)
| EGetLastPeriod.

(** The attributes of a [Processor] instance. *)
Record ProcState := {
  kpis : list Kpi;
  current_period : Period;
  current_day : label }.

Record World := {
  proc : ProcState;
  db : list Row;
  last_period : option Period;
  trace : list Event }.

Definition set_proc (w : World) (s : ProcState) : World :=
  {| proc := s; db := db w; last_period := last_period w; trace := trace w |}.
Definition set_db (w : World) (d : list Row) : World :=
  {| proc := proc w; db := d; last_period := last_period w; trace := trace w |}.
Definition log (w : World) (e : Event) : World :=
  {| proc := proc w; db := db w; last_period := last_period w; trace := (trace w ++ [e])%list |}.

(** Statements run against the world; a raised exception stops the
    computation and keeps the effects done before it. *)
Definition M (A : Type) : Type := World -> result A * World.

Definition ret {A} (a : A) : M A := fun w => (Ok a, w).
Definition bind {A B} (m : M A) (f : A -> M B) : M B :=
  fun w => match m w with
           | (Ok a, w') => f a w'
           | (Err e, w') => (Err e, w')
           end.
Definition lift {A} (r : result A) : M A := fun w => (r, w).
Definition emit (e : Event) : M unit := fun w => (Ok tt, log w e).
Definition get_proc : M ProcState := fun w => (Ok (proc w), w).
Definition put_proc (s : ProcState) : M unit := fun w => (Ok tt, set_proc w s).

Notation "x <- m ;; k" := (bind m (fun x => k))
  (at level 61, m at next level, right associativity).
Notation "m ;; k" := (bind m (fun _ : unit => k))
  (at level 61, right associativity).

(** [for x in l: body(x)] *)
Fixpoint mfor {A} (l : list A) (body : A -> M unit) : M unit :=
  match l with
  | [] => ret tt
  | x :: l' => body x ;; mfor l' body
  end.

(** A [for] loop threading one local variable. *)
Fixpoint mfold {A B} (body : B -> A -> M B) (acc : B) (l : list A) : M B :=
  match l with
  | [] => ret acc
  | x :: l' => acc' <- body acc x ;; mfold body acc' l'
  end.

(** Modelled from the spec: [backend.db.persister.Persister], whose
    operations "are keyed by (kpi_id, granularity, label)". *)
Definition row_key (kpi_id : Z) (agg_kind : string) (r : Row) : bool :=
  (row_kpi r =? kpi_id) && String.eqb (row_kind r) agg_kind.

Definition row_is (kpi_id : Z) (agg_kind : string) (l : label) (r : Row) : bool :=
  row_key kpi_id agg_kind r && label_eqb (row_label r) l.

Definition values_of (kpi_id : Z) (agg_kind : string) (d : list Row) : list Value :=
  map (fun r => {| agg_value := row_label r; kpi_value := row_val r |})
      (filter (row_key kpi_id agg_kind) d).

Definition db_delete (kpi_id : Z) (agg_kind : string) (l : label) (d : list Row) :=
  filter (fun r => negb (row_is kpi_id agg_kind l r)) d.

Definition with_val (r : Row) (v : Z) : Row :=
  {| row_kpi := row_kpi r; row_kind := row_kind r; row_label := row_label r; row_val := v |}.

Definition db_update (kpi_id : Z) (agg_kind : string) (l : label) (v : Z) (d : list Row) :=
  map (fun r => if row_is kpi_id agg_kind l r then with_val r v else r) d.

Definition db_add (kpi_id : Z) (agg_kind : string) (l : label) (v : Z) (d : list Row) :=
  (d ++ [{| row_kpi := kpi_id; row_kind := agg_kind; row_label := l; row_val := v |}])%list.

Definition get_kpi_values (kpi_id : Z) (agg_kind : string) : M (list Value) :=
  fun w => (Ok (values_of kpi_id agg_kind (db w)), log w (EGetValues kpi_id agg_kind)).

Definition delete_kpi_value (kpi_id : Z) (agg_kind : string) (l : label) : M unit :=
  fun w => (Ok tt, log (set_db w (db_delete kpi_id agg_kind l (db w)))
                       (EDelete kpi_id agg_kind l)).

Definition update_kpi_value (kpi_id : Z) (agg_kind : string) (l : label) (v : Z) : M unit :=
  fun w => (Ok tt, log (set_db w (db_update kpi_id agg_kind l v (db w)))
                       (EUpdate kpi_id agg_kind l v)).

Definition add_kpi_value (kpi_id : Z) (agg_kind : string) (l : label) (v : Z) : M unit :=
  fun w => (Ok tt, log (set_db w (db_add kpi_id agg_kind l v (db w)))
                       (EAdd kpi_id agg_kind l v)).

Definition get_last_current_period : M (option Period) :=
  fun w => (Ok (last_period w), log w EGetLastPeriod).

(** ** The processor *)

(** [Processor.__init__] (the KPIs are appended by the caller). *)
Definition init_processor (now : Period) : result ProcState :=
  d <-? get_truncated_value now "D" ;;
  Ok {| kpis := []; current_period := now; current_day := d |}.

(** Python's [aggregations_to_keep and agg_value not in aggregations_to_keep]. *)
Definition pruned (keep : option (list label)) (l : label) : bool :=
  match keep with
  | None | Some [] => false
  | Some ls => negb (existsb (label_eqb l) ls)
  end.

(** The body of the scan over the existing values in
    [Processor.compute_kpi_values_for_aggregation_kind]; the boolean is the
    local [value_updated]. *)
Definition scan_value (kpi : Kpi) (agg_kind : string)
  (aggregations_to_keep : option (list label)) (current_agg_value : label)
  (timestamps : Timestamps) (value_updated : bool) (value : Value) : M bool :=
  (if pruned aggregations_to_keep (agg_value value)
   then delete_kpi_value (unique_id kpi) agg_kind (agg_value value)
   else ret tt) ;;
  if label_eqb (agg_value value) current_agg_value then
    let v := get_value kpi agg_kind (start timestamps) (stop timestamps) in
    update_kpi_value (unique_id kpi) agg_kind (agg_value value) v ;;
    ret true
  else ret value_updated.

(** [Processor.compute_kpi_values_for_aggregation_kind] *)
Definition compute_kpi_values_for_aggregation_kind
  (now : Period) (kpi : Kpi) (agg_kind : string) : M unit :=
  emit (ECompute now (unique_id kpi) agg_kind) ;;
  values <- get_kpi_values (unique_id kpi) agg_kind ;;
  current_agg_value <- lift (get_truncated_value now agg_kind) ;;
  aggregations_to_keep <- lift (get_aggregations_to_keep agg_kind now) ;;
  timestamps <- lift (get_timestamps agg_kind now) ;;
  value_updated <-
    mfold (scan_value kpi agg_kind aggregations_to_keep current_agg_value timestamps)
      false values ;;
  if negb value_updated then
    add_kpi_value (unique_id kpi) agg_kind current_agg_value
      (get_value kpi agg_kind (start timestamps) (stop timestamps))
  else ret tt.

(** [Processor.process_tick]; the boolean is its return value. *)
Definition process_tick (now : Period) : M bool :=
  st <- get_proc ;;
  if current_period st =? now then ret false else
  let period_to_compute := current_period st in
  put_proc {| kpis := kpis st; current_period := now; current_day := current_day st |} ;;
  st1 <- get_proc ;;
  mfor (kpis st1) (fun kpi =>
    mfor ["D"; "W"; "M"] (fun agg_kind =>
      compute_kpi_values_for_aggregation_kind period_to_compute kpi agg_kind)) ;;
  now_day <- lift (get_truncated_value now "D") ;;
  st2 <- get_proc ;;
  (if negb (label_eqb (current_day st2) now_day) then
     mfor (kpis st2) (fun kpi =>
       compute_kpi_values_for_aggregation_kind period_to_compute kpi "Y") ;;
     st3 <- get_proc ;;
     put_proc {| kpis := kpis st3; current_period := current_period st3;
                 current_day := now_day |}
   else ret tt) ;;
  ret true.

(** [Processor.restore_from_db] *)
Definition restore_from_db : M unit :=
  lastPeriod <- get_last_current_period ;;
  match lastPeriod with
  | None => ret tt
  | Some lastPeriod =>
      st <- get_proc ;;
      (if negb (lastPeriod =? current_period st) then
         mfor (kpis st) (fun kpi =>
           mfor ["D"; "W"; "M"] (fun agg_kind =>
             compute_kpi_values_for_aggregation_kind lastPeriod kpi agg_kind))
       else ret tt) ;;
      lastPeriod_day <- lift (get_truncated_value lastPeriod "D") ;;
      st' <- get_proc ;;
      if negb (label_eqb (current_day st') lastPeriod_day) then
        mfor (kpis st') (fun kpi =>
          compute_kpi_values_for_aggregation_kind lastPeriod kpi "Y")
      else ret tt
  end.

(** A sequence of clock ticks. *)
Fixpoint run_ticks (ticks : list Period) : M (list bool) :=
  match ticks with
  | [] => ret []
  | t :: ts => b <- process_tick t ;; bs <- run_ticks ts ;; ret (b :: bs)
  end.

(** ** Auxiliary definitions of the proofs *)

(** [check_from f lo n] tests [f] on [lo, lo + n). *)
Fixpoint check_from (f : Z -> bool) (lo : Z) (n : nat) : bool :=
  match n with O => true | S n' => f lo && check_from f (lo + 1) n' end.

Definition adj (m : Z) : Z := if m <=? 2 then 1 else 0.

(** Every day of an era decodes to a valid date of the era that encodes
    back to it. *)
Definition doe_ok (doe : Z) : bool :=
  let '(yoe, m, d) := civil_of_doe doe in
  (0 <=? yoe) && (yoe <? 400) && (1 <=? m) && (m <=? 12) && (1 <=? d)
  && (d <=? days_in_month (yoe + adj m) m)
  && (doe_of_civil yoe m d =? doe).

(** Every valid date of an era encodes to a day of the era that decodes
    back to it. *)
Definition civil_ok (yoe m d : Z) : bool :=
  if (1 <=? d) && (d <=? days_in_month (yoe + adj m) m) then
    let doe := doe_of_civil yoe m d in
    let '(a, b, e) := civil_of_doe doe in
    (a =? yoe) && (b =? m) && (e =? d) && (0 <=? doe) && (doe <? 146097)
  else true.

Definition day_label (p : Period) : label := LDay (year p) (month p) (day p).
Definition week_label (p : Period) : label := iso_week_label (period_day_number p).
Definition month_label (p : Period) : label := LMonth (year p) (month p).
Definition year_label (p : Period) : label := LYear (year p).

(** A store transformation acting row by row: drop or rewrite each row. *)
Definition omap_rows (g : Row -> option Row) (d : list Row) : list Row :=
  flat_map (fun r => match g r with Some r' => [r'] | None => [] end) d.

Definition is_cur (cur : label) (v : Value) : bool := label_eqb (agg_value v) cur.

(** What the scan over the values [P] does to one row: it deletes the row
    when its label is pruned and one of [P] carries it, and sets the fresh
    numeric value [x] on rows of the current bucket once one of [P] matched. *)
Definition scan_row (id : Z) (k : string) (keep : option (list label)) (cur : label)
  (x : Z) (P : list Value) (r : Row) : option Row :=
  if row_key id k r && pruned keep (row_label r)
     && existsb (fun v => label_eqb (agg_value v) (row_label r)) P
  then None
  else Some (if existsb (is_cur cur) P && row_is id k cur r then with_val r x else r).

Definition is_add (e : Event) : bool :=
  match e with EAdd _ _ _ _ => true | _ => false end.

(** The calls of [compute_kpi_values_for_aggregation_kind] in a trace. *)
Definition calls (tr : list Event) : list (Period * Z * string) :=
  flat_map (fun e => match e with ECompute p i k => [(p, i, k)] | _ => [] end) tr.

Definition new_row (kpi_id : Z) (k : string) (l : label) (v : Z) : Row :=
  {| row_kpi := kpi_id; row_kind := k; row_label := l; row_val := v |}.

(** [m] succeeds, keeps the processor state, and calls
    [compute_kpi_values_for_aggregation_kind] exactly as [cs] lists. *)
Definition calls_ok (m : M unit) (cs : list (Period * Z * string)) : Prop :=
  forall w, fst (m w) = Ok tt /\ proc (snd (m w)) = proc w /\
    exists seg, trace (snd (m w)) = trace w ++ seg /\ calls seg = cs.

Definition keeps_proc {A} (m : M A) : Prop := forall w, proc (snd (m w)) = proc w.

(** The periods whose windows all resolve. *)
Definition windows_ok (p : Period) : bool :=
  forallb (fun k => is_ok (get_timestamps k p)) ["D"; "W"; "M"; "Y"].

(** The calls of one tick that advances from [cp] (day [cd]) to [t]. *)
Definition tick_calls (ks : list Kpi) (cp : Period) (cd : label) (t : Period)
  : list (Period * Z * string) :=
  flat_map (fun kpi => [(cp, unique_id kpi, "D"); (cp, unique_id kpi, "W");
                        (cp, unique_id kpi, "M")]) ks
  ++ (if label_eqb cd (day_label t) then []
      else map (fun kpi => (cp, unique_id kpi, "Y")) ks).

Fixpoint expected_calls (ks : list Kpi) (cp : Period) (cd : label) (ticks : list Period)
  : list (Period * Z * string) :=
  match ticks with
  | [] => []
  | t :: ts =>
      if cp =? t then expected_calls ks cp cd ts
      else tick_calls ks cp cd t ++ expected_calls ks t (day_label t) ts
  end.

Definition count_kind (k : string) (cs : list (Period * Z * string)) : nat :=
  List.length (filter (fun c => String.eqb (snd c) k) cs).

(** How many ticks of [ticks] advance the period, starting from [cp]. *)
Fixpoint advancing (cp : Period) (ticks : list Period) : nat :=
  match ticks with
  | [] => 0
  | t :: ts => if cp =? t then advancing cp ts else S (advancing t ts)
  end.

(** The 24 hourly periods of day number [dn]. *)
Definition day_hours (dn : Z) : list Period :=
  map (fun h => dn * 24 + Z.of_nat h) (seq 0 24).

Definition labels_of (id : Z) (k : string) (d : list Row) : list label :=
  map row_label (filter (row_key id k) d).

Definition row_ident (r : Row) : Z * string * label := (row_kpi r, row_kind r, row_label r).

(** The number of days in the years 1 to [y]: 365 each, plus one for each
    leap year of the Gregorian rule. *)
Definition cum_days (y : Z) : Z := 365 * y + y / 4 - y / 100 + y / 400.

(** ** Concrete inputs *)

(** A KPI whose value is the length of its window in seconds. *)
Definition k1 : Kpi := {| unique_id := 1; get_value := fun _ start_ts stop_ts => stop_ts - start_ts |}.

(** 2024-03-15T14:00 (a Friday), 2024-12-15T14:00, 2024-12-31T23:00 and
    2025-01-01T00:00. *)
Definition p20240315 : Period := days_from_civil 2024 3 15 * 24 + 14.
Definition p20241215 : Period := days_from_civil 2024 12 15 * 24 + 14.
Definition p20241231_23 : Period := days_from_civil 2024 12 31 * 24 + 23.
Definition p20250101_00 : Period := days_from_civil 2025 1 1 * 24.

Definition world0 (ks : list Kpi) (cp : Period) (cd : label) (d : list Row)
  (lp : option Period) : World :=
  {| proc := {| kpis := ks; current_period := cp; current_day := cd |};
     db := d; last_period := lp; trace := [] |}.

(** ** Calendar facts *)

Lemma check_from_spec f n : forall lo, check_from f lo n = true ->
  forall x, lo <= x < lo + Z.of_nat n -> f x = true.
Proof.
  induction n as [|n IH]; intros lo H x Hx; simpl in *; [lia|].
  apply andb_true_iff in H as [H1 H2].
  destruct (Z.eq_dec x lo) as [->|Hne]; [assumption|].
  apply (IH (lo + 1)); [assumption|lia].
Qed.

Lemma doe_ok_all : check_from doe_ok 0 (Z.to_nat 146097) = true.
Proof. vm_compute. reflexivity. Qed.

Lemma civil_ok_all :
  check_from (fun yoe => check_from (fun m =>
    check_from (fun d => civil_ok yoe m d) 1 31) 1 12) 0 400 = true.
Proof. vm_compute. reflexivity. Qed.

Lemma civil_of_doe_props doe : 0 <= doe < 146097 ->
  let '(yoe, m, d) := civil_of_doe doe in
  0 <= yoe < 400 /\ 1 <= m <= 12 /\ 1 <= d <= days_in_month (yoe + adj m) m
  /\ doe_of_civil yoe m d = doe.
Proof.
  intros Hd. pose proof (check_from_spec _ _ _ doe_ok_all doe) as H.
  rewrite Z2Nat.id in H by lia. specialize (H Hd).
  unfold doe_ok in H. destruct (civil_of_doe doe) as [[yoe m] d].
  repeat rewrite andb_true_iff in H.
  rewrite !Z.leb_le, !Z.ltb_lt, Z.eqb_eq in H. lia.
Qed.

Lemma is_leap_era a k : is_leap (a + k * 400) = is_leap a.
Proof.
  unfold is_leap.
  replace (a + k * 400) with (a + (k * 100) * 4) by ring.
  rewrite Z.mod_add by lia.
  replace (a + k * 100 * 4) with (a + (k * 4) * 100) by ring.
  rewrite Z.mod_add by lia.
  replace (a + k * 4 * 100) with (a + k * 400) by ring.
  rewrite Z.mod_add by lia. reflexivity.
Qed.

Lemma days_in_month_era a k m : days_in_month (a + k * 400) m = days_in_month a m.
Proof. unfold days_in_month. rewrite is_leap_era. reflexivity. Qed.

Lemma days_in_month_range y m : 28 <= days_in_month y m <= 31.
Proof.
  unfold days_in_month.
  destruct (m =? 2); [destruct (is_leap y)|]; try lia.
  destruct (_ || _); lia.
Qed.

(** Decoding a day number gives a valid date that encodes back to it. *)
Lemma days_civil_days z :
  let '(y, m, d) := civil_from_days z in
  days_from_civil y m d = z /\ 1 <= m <= 12 /\ 1 <= d <= days_in_month y m.
Proof.
  unfold civil_from_days.
  pose proof (Z.mod_pos_bound (z + 719468) 146097 ltac:(lia)) as Hb.
  pose proof (Z.div_mod (z + 719468) 146097 ltac:(lia)) as Hdm.
  set (era := (z + 719468) / 146097) in *.
  set (doe := (z + 719468) mod 146097) in *.
  pose proof (civil_of_doe_props doe Hb) as Hp.
  destruct (civil_of_doe doe) as [[yoe m] d].
  destruct Hp as (Hy & Hm & Hd & Hdoe).
  fold (adj m).
  replace (yoe + era * 400 + adj m) with ((yoe + adj m) + era * 400) by ring.
  rewrite days_in_month_era.
  split; [|lia].
  unfold days_from_civil.
  assert (Hy' : (if m <=? 2 then yoe + adj m + era * 400 - 1
                 else yoe + adj m + era * 400) = yoe + era * 400).
  { unfold adj; destruct (m <=? 2); lia. }
  rewrite Hy'.
  rewrite Z.div_add, Z.div_small, Z.mod_add, Z.mod_small by lia.
  rewrite Hdoe. lia.
Qed.

(** Encoding a valid date gives a day number that decodes back to it. *)
Lemma civil_days_civil y m d :
  1 <= m <= 12 -> 1 <= d <= days_in_month y m ->
  civil_from_days (days_from_civil y m d) = (y, m, d).
Proof.
  intros Hm Hd.
  pose proof (days_in_month_range y m).
  set (y' := if m <=? 2 then y - 1 else y).
  assert (Hyy : y = y' + adj m) by (unfold y', adj; destruct (m <=? 2); lia).
  pose proof (Z.mod_pos_bound y' 400 ltac:(lia)) as Hb.
  pose proof (Z.div_mod y' 400 ltac:(lia)) as Hdm.
  set (era := y' / 400) in *. set (yoe := y' mod 400) in *.
  assert (Hc : civil_ok yoe m d = true).
  { pose proof (check_from_spec _ _ _ civil_ok_all yoe ltac:(simpl; lia)) as H1.
    pose proof (check_from_spec _ _ _ H1 m ltac:(simpl; lia)) as H2.
    exact (check_from_spec _ _ _ H2 d ltac:(simpl; lia)). }
  unfold civil_ok in Hc.
  replace (days_in_month (yoe + adj m) m) with (days_in_month y m) in Hc
    by (rewrite <- (days_in_month_era (yoe + adj m) era m); f_equal; lia).
  assert (Hv : (1 <=? d) && (d <=? days_in_month y m) = true)
    by (apply andb_true_iff; split; apply Z.leb_le; lia).
  rewrite Hv in Hc. cbv beta iota zeta in Hc.
  destruct (civil_of_doe (doe_of_civil yoe m d)) as [[a b] e] eqn:Ec.
  repeat rewrite andb_true_iff in Hc.
  destruct Hc as ((((Ha & Hb') & He) & H0) & H1).
  apply Z.eqb_eq in Ha, Hb', He. apply Z.leb_le in H0. apply Z.ltb_lt in H1.
  subst a b e.
  unfold days_from_civil, civil_from_days. fold y'. fold era yoe.
  replace (era * 146097 + doe_of_civil yoe m d - 719468 + 719468)
    with (doe_of_civil yoe m d + era * 146097) by ring.
  rewrite Z.mod_add, Z.mod_small, Z.div_add, Z.div_small by lia.
  rewrite Ec. fold (adj m). f_equal. f_equal. lia.
Qed.

(** ** Periods: truncation and shifting *)

Lemma truncate_all_ok ps k f :
  (forall p, get_truncated_value p k = Ok (f p)) ->
  truncate_all ps k = Ok (map f ps).
Proof.
  intros Hf. induction ps as [|p ps IH]; simpl; [reflexivity|].
  rewrite Hf. simpl. rewrite IH. reflexivity.
Qed.

Lemma period_split p : period_day_number p * 24 + period_hour p = p.
Proof.
  unfold period_day_number, period_hour.
  pose proof (Z.div_mod p 24 ltac:(lia)). lia.
Qed.

Lemma period_day_number_of n h : 0 <= h < 24 -> period_day_number (n * 24 + h) = n.
Proof.
  intros Hh. unfold period_day_number.
  rewrite Z.div_add_l, Z.div_small by lia. lia.
Qed.

Lemma period_day_number_shift p k : period_day_number (p + 24 * k) = period_day_number p + k.
Proof.
  unfold period_day_number.
  replace (p + 24 * k) with (p + k * 24) by ring.
  rewrite Z.div_add by lia. reflexivity.
Qed.

(** Shifting by days only moves the period by whole days. *)
Lemma get_shifted_days_only p k : get_shifted p (rd_days_only k) = p + 24 * k.
Proof.
  unfold get_shifted.
  pose proof (days_civil_days (period_day_number p)) as H.
  pose proof (period_split p).
  destruct (civil_from_days (period_day_number p)) as [[y m] d].
  destruct H as (Hz & Hm & Hd). cbn [rd_months rd_days rd_days_only Z.eqb].
  rewrite Z.min_l by lia. rewrite Hz. lia.
Qed.

Lemma get_shifted_weeks p k : get_shifted p (rd_weeks k) = p + 168 * k.
Proof.
  unfold rd_weeks. change {| rd_months := 0; rd_days := 7 * k |} with (rd_days_only (7 * k)).
  rewrite get_shifted_days_only. lia.
Qed.

Lemma div_mod_12 y r : 0 <= r < 12 -> (y * 12 + r) / 12 = y /\ (y * 12 + r) mod 12 = r.
Proof.
  intros Hr. split.
  - rewrite Z.div_add_l, Z.div_small by lia. lia.
  - rewrite Z.add_comm, Z.mod_add, Z.mod_small by lia. reflexivity.
Qed.

(** Shifting back by [k] months lands in the month [k] months before. *)
Lemma month_label_shift p k : 0 <= k ->
  month_label (get_shifted p (rd_months_only (- k))) =
  LMonth ((year p * 12 + month p - 1 - k) / 12) ((year p * 12 + month p - 1 - k) mod 12 + 1).
Proof.
  intros Hk.
  destruct (Z.eq_dec k 0) as [->|Hk0].
  - change (- 0) with 0.
    change (rd_months_only 0) with (rd_days_only 0).
    rewrite get_shifted_days_only, Z.add_0_r.
    unfold month_label, year, month.
    pose proof (days_civil_days (period_day_number p)) as H.
    destruct (civil_from_days (period_day_number p)) as [[y m] d].
    destruct H as (_ & Hm & _).
    replace (y * 12 + m - 1 - 0) with (y * 12 + (m - 1)) by ring.
    destruct (div_mod_12 y (m - 1) ltac:(lia)) as [-> ->].
    f_equal. lia.
  - unfold get_shifted, month_label, year, month.
    pose proof (days_civil_days (period_day_number p)) as H.
    destruct (civil_from_days (period_day_number p)) as [[y m] d].
    destruct H as (_ & Hm & Hd). simpl rd_months. simpl rd_days.
    destruct (Z.eqb_spec (- k) 0) as [E|_]; [lia|].
    set (t := y * 12 + (m - 1) + - k).
    pose proof (Z.mod_pos_bound t 12 ltac:(lia)).
    pose proof (days_in_month_range (t / 12) (t mod 12 + 1)).
    rewrite Z.add_0_r, period_day_number_of by (unfold period_hour; apply Z.mod_pos_bound; lia).
    rewrite civil_days_civil by lia.
    replace (y * 12 + m - 1 - k) with t by (unfold t; ring). reflexivity.
Qed.

Lemma NoDup_map_injective {A B} (f : A -> B) (l : list A) :
  (forall x y, f x = f y -> x = y) -> NoDup l -> NoDup (map f l).
Proof.
  intros Hf Hl. induction Hl as [|x l Hx Hl IH]; simpl; constructor; [|exact IH].
  intros Hin. apply in_map_iff in Hin as (y & Hy & Hyl).
  apply Hf in Hy. subst. contradiction.
Qed.

Lemma civil_from_days_inj a b : civil_from_days a = civil_from_days b -> a = b.
Proof.
  intros E.
  pose proof (days_civil_days a) as Ha. pose proof (days_civil_days b) as Hb.
  rewrite E in Ha. destruct (civil_from_days b) as [[y m] d].
  destruct Ha as [Ha _]. destruct Hb as [Hb _]. congruence.
Qed.

Lemma day_label_inj p a b : day_label (p + 24 * a) = day_label (p + 24 * b) -> a = b.
Proof.
  unfold day_label, year, month, day. rewrite !period_day_number_shift.
  intros E. enough (period_day_number p + a = period_day_number p + b) by lia.
  apply civil_from_days_inj.
  destruct (civil_from_days (period_day_number p + a)) as [[y1 m1] d1].
  destruct (civil_from_days (period_day_number p + b)) as [[y2 m2] d2].
  congruence.
Qed.

Lemma week_label_inj p a b : week_label (p + 168 * a) = week_label (p + 168 * b) -> a = b.
Proof.
  unfold week_label, iso_week_label.
  replace (p + 168 * a) with (p + 24 * (7 * a)) by ring.
  replace (p + 168 * b) with (p + 24 * (7 * b)) by ring.
  rewrite !period_day_number_shift.
  set (n := period_day_number p).
  assert (Hw : forall c, (n + 7 * c + 3) mod 7 = (n + 3) mod 7).
  { intros c. replace (n + 7 * c + 3) with (n + 3 + c * 7) by ring.
    apply Z.mod_add. lia. }
  rewrite !Hw.
  set (th := n + 4 - ((n + 3) mod 7 + 1)).
  replace (n + 7 * a + 4 - ((n + 3) mod 7 + 1)) with (th + 7 * a) by (unfold th; ring).
  replace (n + 7 * b + 4 - ((n + 3) mod 7 + 1)) with (th + 7 * b) by (unfold th; ring).
  destruct (civil_from_days (th + 7 * a)) as [[iy1 m1] d1].
  destruct (civil_from_days (th + 7 * b)) as [[iy2 m2] d2].
  intros E0. assert (iy1 = iy2) as <- by congruence.
  set (j := days_from_civil iy1 1 1) in E0.
  assert (E : (th + 7 * a - j) / 7 + 1 = (th + 7 * b - j) / 7 + 1) by congruence.
  replace (th + 7 * a - j) with (th - j + a * 7) in E by ring.
  replace (th + 7 * b - j) with (th - j + b * 7) in E by ring.
  rewrite !Z.div_add in E by lia. lia.
Qed.

Lemma month_label_inj p a b : 0 <= a -> 0 <= b ->
  month_label (get_shifted p (rd_months_only (- a))) =
  month_label (get_shifted p (rd_months_only (- b))) -> a = b.
Proof.
  intros Ha Hb. rewrite !month_label_shift by assumption.
  set (t := year p * 12 + month p - 1).
  intros E. injection E as E1 E2.
  pose proof (Z.div_mod (t - a) 12 ltac:(lia)).
  pose proof (Z.div_mod (t - b) 12 ltac:(lia)). lia.
Qed.

Lemma keep_D p :
  get_aggregations_to_keep "D" p = Ok (Some (map day_label (shifted_periods p rd_days_only 7))).
Proof. unfold get_aggregations_to_keep. rewrite (truncate_all_ok _ _ day_label) by reflexivity. reflexivity. Qed.

Lemma keep_W p :
  get_aggregations_to_keep "W" p = Ok (Some (map week_label (shifted_periods p rd_weeks 4))).
Proof. unfold get_aggregations_to_keep. rewrite (truncate_all_ok _ _ week_label) by reflexivity. reflexivity. Qed.

Lemma keep_M p :
  get_aggregations_to_keep "M" p = Ok (Some (map month_label (shifted_periods p rd_months_only 12))).
Proof. unfold get_aggregations_to_keep. rewrite (truncate_all_ok _ _ month_label) by reflexivity. reflexivity. Qed.

Lemma keep_D_NoDup p : NoDup (map day_label (shifted_periods p rd_days_only 7)).
Proof.
  unfold shifted_periods. rewrite map_map.
  apply NoDup_map_injective; [|apply seq_NoDup].
  intros x y E. rewrite !get_shifted_days_only in E.
  apply day_label_inj in E. lia.
Qed.

Lemma keep_W_NoDup p : NoDup (map week_label (shifted_periods p rd_weeks 4)).
Proof.
  unfold shifted_periods. rewrite map_map.
  apply NoDup_map_injective; [|apply seq_NoDup].
  intros x y E. rewrite !get_shifted_weeks in E.
  apply week_label_inj in E. lia.
Qed.

Lemma keep_M_NoDup p : NoDup (map month_label (shifted_periods p rd_months_only 12)).
Proof.
  unfold shifted_periods. rewrite map_map.
  apply NoDup_map_injective; [|apply seq_NoDup].
  intros x y E. apply month_label_inj in E; lia.
Qed.

(** ** The store after a scan *)

Lemma omap_rows_app g d1 d2 : omap_rows g (d1 ++ d2) = omap_rows g d1 ++ omap_rows g d2.
Proof. unfold omap_rows. apply flat_map_app. Qed.

Lemma omap_rows_compose g1 g2 d :
  omap_rows g2 (omap_rows g1 d) =
  omap_rows (fun r => match g1 r with Some r' => g2 r' | None => None end) d.
Proof.
  induction d as [|r d IH]; simpl; [reflexivity|].
  destruct (g1 r) as [r'|]; simpl; [|exact IH].
  destruct (g2 r'); simpl; rewrite IH; reflexivity.
Qed.

Lemma omap_rows_ext g1 g2 d : (forall r, g1 r = g2 r) -> omap_rows g1 d = omap_rows g2 d.
Proof. intros H. induction d as [|r d IH]; simpl; [reflexivity|]. rewrite H, IH. reflexivity. Qed.

Lemma omap_rows_id_on g d : (forall r, In r d -> g r = Some r) -> omap_rows g d = d.
Proof.
  intros H. induction d as [|r d IH]; simpl; [reflexivity|].
  rewrite H by (left; reflexivity). simpl. f_equal. apply IH. intros; apply H; right; assumption.
Qed.

Lemma in_omap_rows g d r : In r (omap_rows g d) -> exists r0, In r0 d /\ g r0 = Some r.
Proof.
  unfold omap_rows. intros H. apply in_flat_map in H as (r0 & Hin & H).
  exists r0. split; [assumption|]. destruct (g r0); simpl in H; [|contradiction].
  destruct H as [->|[]]; reflexivity.
Qed.

Lemma db_delete_omap id k l d :
  db_delete id k l d = omap_rows (fun r => if row_is id k l r then None else Some r) d.
Proof. induction d as [|r d IH]; simpl; [reflexivity|]. destruct (row_is id k l r); simpl; rewrite IH; reflexivity. Qed.

Lemma db_update_omap id k l v d :
  db_update id k l v d = omap_rows (fun r => Some (if row_is id k l r then with_val r v else r)) d.
Proof. induction d as [|r d IH]; simpl; [reflexivity|]. rewrite IH. reflexivity. Qed.

Lemma label_eqb_refl a : label_eqb a a = true.
Proof. unfold label_eqb. destruct (label_eq_dec a a); congruence. Qed.

Lemma label_eqb_neq a b : a <> b -> label_eqb a b = false.
Proof. unfold label_eqb. destruct (label_eq_dec a b); congruence. Qed.

Lemma label_eqb_eq a b : label_eqb a b = true -> a = b.
Proof. unfold label_eqb. destruct (label_eq_dec a b); congruence. Qed.

Ltac lab_simpl :=
  repeat first
    [ rewrite label_eqb_refl
    | match goal with
      | H : ?a <> ?b |- context [label_eqb ?a ?b] => rewrite (label_eqb_neq a b H)
      | H : ?a <> ?b |- context [label_eqb ?b ?a] =>
          rewrite (label_eqb_neq b a (not_eq_sym H))
      end ].

Ltac rw_bools :=
  repeat match goal with
  | H : ?t = true |- context [?t] => rewrite H
  | H : ?t = false |- context [?t] => rewrite H
  end.

Lemma scan_row_snoc id k keep cur x P v r :
  match scan_row id k keep cur x P r with
  | Some r1 =>
      match (if pruned keep (agg_value v)
             then (if row_is id k (agg_value v) r1 then None else Some r1)
             else Some r1) with
      | Some r2 => Some (if label_eqb (agg_value v) cur
                         then (if row_is id k (agg_value v) r2 then with_val r2 x else r2)
                         else r2)
      | None => None
      end
  | None => None
  end = scan_row id k keep cur x (P ++ [v]) r.
Proof.
  destruct v as [lv xv]. destruct r as [rk rkd rl rv].
  unfold scan_row, row_is, row_key, with_val, is_cur.
  cbn [row_kpi row_kind row_label row_val agg_value].
  rewrite !existsb_app. cbn [existsb agg_value]. rewrite !orb_false_r.
  destruct (label_eq_dec lv rl) as [<-|E1]; destruct (label_eq_dec lv cur) as [<-|E2];
    try destruct (label_eq_dec rl cur) as [<-|E3]; lab_simpl;
    destruct (rk =? id) eqn:?; destruct (String.eqb rkd k) eqn:?;
    try destruct (pruned keep lv) eqn:?; try destruct (pruned keep rl) eqn:?;
    try destruct (existsb (fun v => label_eqb (agg_value v) lv) P) eqn:?;
    try destruct (existsb (fun v => label_eqb (agg_value v) rl) P) eqn:?;
    try destruct (existsb (fun v => label_eqb (agg_value v) cur) P) eqn:?;
    do 4 (cbn [andb orb negb row_kpi row_kind row_label row_val agg_value];
          lab_simpl; rw_bools);
    reflexivity.
Qed.

(** ** Traces *)

Lemma calls_app t1 t2 : calls (t1 ++ t2) = calls t1 ++ calls t2.
Proof. unfold calls. apply flat_map_app. Qed.

Lemma scan_value_step kpi k keep cur ts D0 P v w :
  let x := get_value kpi k (start ts) (stop ts) in
  db w = omap_rows (scan_row (unique_id kpi) k keep cur x P) D0 ->
  let r := scan_value kpi k keep cur ts (existsb (is_cur cur) P) v w in
  fst r = Ok (existsb (is_cur cur) (P ++ [v])) /\
  db (snd r) = omap_rows (scan_row (unique_id kpi) k keep cur x (P ++ [v])) D0 /\
  proc (snd r) = proc w /\ last_period (snd r) = last_period w /\
  exists seg, trace (snd r) = trace w ++ seg /\ filter is_add seg = [] /\ calls seg = [].
Proof.
  intros x Hdb.
  assert (Hs : forall r, scan_row (unique_id kpi) k keep cur x (P ++ [v]) r =
    match scan_row (unique_id kpi) k keep cur x P r with
    | Some r1 =>
        match (if pruned keep (agg_value v)
               then (if row_is (unique_id kpi) k (agg_value v) r1 then None else Some r1)
               else Some r1) with
        | Some r2 => Some (if label_eqb (agg_value v) cur
                           then (if row_is (unique_id kpi) k (agg_value v) r2
                                 then with_val r2 x else r2)
                           else r2)
        | None => None
        end
    | None => None
    end) by (intros r; symmetry; apply scan_row_snoc).
  rewrite existsb_app. cbn [existsb]. rewrite orb_false_r.
  change (is_cur cur v) with (label_eqb (agg_value v) cur).
  unfold scan_value, bind, ret, delete_kpi_value, update_kpi_value.
  destruct (pruned keep (agg_value v)) eqn:Hp;
  destruct (label_eqb (agg_value v) cur) eqn:Hc;
    cbn [fst snd db proc last_period trace log set_db];
    rewrite ?orb_true_r, ?orb_false_r; (split; [reflexivity|]).
  - split; [|split; [reflexivity|split; [reflexivity|]]].
    + rewrite db_update_omap, db_delete_omap, Hdb, !omap_rows_compose.
      apply omap_rows_ext. intros r. rewrite Hs.
      destruct (scan_row _ _ _ _ _ P r); reflexivity.
    + eexists. rewrite <- app_assoc. split; [reflexivity|]. split; reflexivity.
  - split; [|split; [reflexivity|split; [reflexivity|]]].
    + rewrite db_delete_omap, Hdb, !omap_rows_compose.
      apply omap_rows_ext. intros r. rewrite Hs.
      destruct (scan_row _ _ _ _ _ P r); [|reflexivity].
      destruct (row_is _ _ _ _); reflexivity.
    + eexists. split; [reflexivity|]. split; reflexivity.
  - split; [|split; [reflexivity|split; [reflexivity|]]].
    + rewrite db_update_omap, Hdb, !omap_rows_compose.
      apply omap_rows_ext. intros r. rewrite Hs.
      destruct (scan_row _ _ _ _ _ P r); reflexivity.
    + eexists. split; [reflexivity|]. split; reflexivity.
  - split; [|split; [reflexivity|split; [reflexivity|]]].
    + rewrite Hdb. apply omap_rows_ext. intros r. rewrite Hs.
      destruct (scan_row _ _ _ _ _ P r); reflexivity.
    + exists []. rewrite app_nil_r. split; [reflexivity|]. split; reflexivity.
Qed.

Lemma mfold_scan kpi k keep cur ts D0 :
  let x := get_value kpi k (start ts) (stop ts) in
  forall S P w,
  db w = omap_rows (scan_row (unique_id kpi) k keep cur x P) D0 ->
  let r := mfold (scan_value kpi k keep cur ts) (existsb (is_cur cur) P) S w in
  fst r = Ok (existsb (is_cur cur) (P ++ S)) /\
  db (snd r) = omap_rows (scan_row (unique_id kpi) k keep cur x (P ++ S)) D0 /\
  proc (snd r) = proc w /\ last_period (snd r) = last_period w /\
  exists seg, trace (snd r) = trace w ++ seg /\ filter is_add seg = [] /\ calls seg = [].
Proof.
  intros x S. induction S as [|v S IH]; intros P w Hdb.
  - cbn. rewrite app_nil_r. repeat split; try assumption.
    exists []. rewrite app_nil_r. repeat split.
  - cbn [mfold]. unfold bind.
    pose proof (scan_value_step kpi k keep cur ts D0 P v w Hdb) as Hst.
    destruct (scan_value kpi k keep cur ts (existsb (is_cur cur) P) v w) as [r1 w1].
    cbn [fst snd] in Hst. destruct Hst as (-> & Hdb1 & Hp1 & Hl1 & seg1 & Ht1 & Ha1 & Hc1).
    cbv beta iota.
    specialize (IH (P ++ [v]) w1 Hdb1). rewrite <- app_assoc in IH. cbn [app] in IH.
    destruct IH as (Hr & Hdb2 & Hp2 & Hl2 & seg2 & Ht2 & Ha2 & Hc2).
    split; [exact Hr|]. split; [exact Hdb2|]. split; [congruence|]. split; [congruence|].
    exists (seg1 ++ seg2). rewrite Ht2, Ht1, app_assoc. split; [reflexivity|].
    rewrite filter_app, calls_app, Ha1, Ha2, Hc1, Hc2. split; reflexivity.
Qed.

Lemma scan_row_nil id k keep cur x r : scan_row id k keep cur x [] r = Some r.
Proof. unfold scan_row. cbn [existsb]. rewrite andb_false_r. reflexivity. Qed.

Lemma omap_rows_some g d : (forall r, g r = Some r) -> omap_rows g d = d.
Proof. intros H. apply omap_rows_id_on. intros r _. apply H. Qed.

(** A call whose granularity resolves: the store after the scan, then the
    new value of the current bucket when none matched. *)
Lemma compute_ok now kpi k w cur keep ts :
  get_truncated_value now k = Ok cur ->
  get_aggregations_to_keep k now = Ok keep ->
  get_timestamps k now = Ok ts ->
  let x := get_value kpi k (start ts) (stop ts) in
  let S := values_of (unique_id kpi) k (db w) in
  let b := existsb (is_cur cur) S in
  let r := compute_kpi_values_for_aggregation_kind now kpi k w in
  fst r = Ok tt /\
  db (snd r) = omap_rows (scan_row (unique_id kpi) k keep cur x S) (db w)
               ++ (if b then [] else [new_row (unique_id kpi) k cur x]) /\
  proc (snd r) = proc w /\ last_period (snd r) = last_period w /\
  exists seg, trace (snd r) =
      trace w ++ [ECompute now (unique_id kpi) k; EGetValues (unique_id kpi) k] ++ seg
      ++ (if b then [] else [EAdd (unique_id kpi) k cur x])
    /\ filter is_add seg = [] /\ calls seg = [].
Proof.
  intros Hc Hk Ht x S b.
  cbv beta iota delta [compute_kpi_values_for_aggregation_kind bind emit lift get_kpi_values].
  rewrite Hc, Hk, Ht.
  set (w1 := log (log w (ECompute now (unique_id kpi) k)) (EGetValues (unique_id kpi) k)).
  assert (Hdb : db w1 = omap_rows (scan_row (unique_id kpi) k keep cur x []) (db w))
    by (rewrite omap_rows_some by (intros; apply scan_row_nil); reflexivity).
  pose proof (mfold_scan kpi k keep cur ts (db w) S [] w1 Hdb) as Hm.
  cbn [existsb app] in Hm. fold x in Hm. fold S in Hm.
  replace (values_of (unique_id kpi) k (db (log w (ECompute now (unique_id kpi) k)))) with S
    by reflexivity.
  destruct (mfold (scan_value kpi k keep cur ts) false S w1) as [r2 w2].
  cbn [fst snd] in Hm. destruct Hm as (-> & Hdb2 & Hp2 & Hl2 & seg & Ht2 & Ha & Hcl).
  fold b. destruct b; cbn [negb].
  - unfold ret. cbn [fst snd]. split; [reflexivity|]. rewrite app_nil_r.
    split; [exact Hdb2|]. split; [exact Hp2|]. split; [exact Hl2|].
    exists seg. rewrite Ht2, !app_nil_r. split; [|split; assumption].
    unfold w1; cbn [trace log]. rewrite <- !app_assoc. reflexivity.
  - unfold add_kpi_value. cbn [fst snd db proc last_period trace log set_db].
    split; [reflexivity|]. split; [rewrite Hdb2; reflexivity|].
    split; [exact Hp2|]. split; [exact Hl2|].
    exists seg. rewrite Ht2. split; [|split; assumption].
    unfold w1; cbn [trace log]. rewrite <- !app_assoc. reflexivity.
Qed.

(** A call whose granularity does not resolve raises before writing. *)
Lemma compute_err now kpi k w :
  (forall cur keep ts, get_truncated_value now k = Ok cur ->
     get_aggregations_to_keep k now = Ok keep -> get_timestamps k now = Ok ts -> False) ->
  let r := compute_kpi_values_for_aggregation_kind now kpi k w in
  (exists e, fst r = Err e) /\ db (snd r) = db w /\ proc (snd r) = proc w /\
  last_period (snd r) = last_period w /\
  trace (snd r) = trace w ++ [ECompute now (unique_id kpi) k; EGetValues (unique_id kpi) k].
Proof.
  intros H.
  unfold compute_kpi_values_for_aggregation_kind, bind, emit, get_kpi_values, lift.
  destruct (get_truncated_value now k) as [cur|e];
    [|cbn; split; [eexists; reflexivity|]; repeat split; rewrite <- app_assoc; reflexivity].
  destruct (get_aggregations_to_keep k now) as [keep|e];
    [|cbn; split; [eexists; reflexivity|]; repeat split; rewrite <- app_assoc; reflexivity].
  destruct (get_timestamps k now) as [ts|e];
    [|cbn; split; [eexists; reflexivity|]; repeat split; rewrite <- app_assoc; reflexivity].
  exfalso. eapply H; reflexivity.
Qed.

Lemma compute_frame now kpi k w :
  let r := compute_kpi_values_for_aggregation_kind now kpi k w in
  proc (snd r) = proc w /\ last_period (snd r) = last_period w.
Proof.
  destruct (get_truncated_value now k) as [cur|e] eqn:Hc;
  [destruct (get_aggregations_to_keep k now) as [keep|e] eqn:Hk;
   [destruct (get_timestamps k now) as [ts|e] eqn:Ht|]|].
  - pose proof (compute_ok now kpi k w cur keep ts Hc Hk Ht) as (_ & _ & H1 & H2 & _).
    split; assumption.
  - pose proof (compute_err now kpi k w) as (_ & _ & H1 & H2 & _); [congruence|].
    split; assumption.
  - pose proof (compute_err now kpi k w) as (_ & _ & H1 & H2 & _); [congruence|].
    split; assumption.
  - pose proof (compute_err now kpi k w) as (_ & _ & H1 & H2 & _); [congruence|].
    split; assumption.
Qed.

(** ** The kinds that resolve *)

Lemma truncated_cases now k cur : get_truncated_value now k = Ok cur ->
  (k = "D" /\ cur = day_label now) \/ (k = "W" /\ cur = week_label now) \/
  (k = "M" /\ cur = month_label now) \/ (k = "Y" /\ cur = year_label now).
Proof.
  unfold get_truncated_value.
  destruct (String.eqb_spec k "D"); [intros E; injection E as <-; left; auto|].
  destruct (String.eqb_spec k "W"); [intros E; injection E as <-; right; left; auto|].
  destruct (String.eqb_spec k "M"); [intros E; injection E as <-; right; right; left; auto|].
  destruct (String.eqb_spec k "Y"); [intros E; injection E as <-; right; right; right; auto|].
  discriminate.
Qed.

Lemma get_shifted_zero p : get_shifted p (rd_days_only 0) = p.
Proof. rewrite get_shifted_days_only. lia. Qed.

(** The current bucket is always among the buckets to keep. *)
Lemma keep_has_current now k cur keep :
  get_truncated_value now k = Ok cur -> get_aggregations_to_keep k now = Ok keep ->
  pruned keep cur = false.
Proof.
  intros Hc Hk.
  destruct (truncated_cases now k cur Hc) as [[-> ->]|[[-> ->]|[[-> ->]|[-> ->]]]].
  - rewrite keep_D in Hk. injection Hk as <-. unfold pruned, shifted_periods.
    cbn [seq map existsb].
    change (rd_days_only (- Z.of_nat 0)) with (rd_days_only 0). rewrite get_shifted_zero.
    rewrite label_eqb_refl. reflexivity.
  - rewrite keep_W in Hk. injection Hk as <-. unfold pruned, shifted_periods.
    cbn [seq map existsb].
    change (rd_weeks (- Z.of_nat 0)) with (rd_days_only 0). rewrite get_shifted_zero.
    rewrite label_eqb_refl. reflexivity.
  - rewrite keep_M in Hk. injection Hk as <-. unfold pruned, shifted_periods.
    cbn [seq map existsb].
    change (rd_months_only (- Z.of_nat 0)) with (rd_days_only 0). rewrite get_shifted_zero.
    rewrite label_eqb_refl. reflexivity.
  - injection Hk as <-. reflexivity.
Qed.

(** ** Scanning a store twice *)

Lemma existsb_values f id k d :
  existsb f (values_of id k d) =
  existsb (fun r => row_key id k r && f {| agg_value := row_label r; kpi_value := row_val r |}) d.
Proof.
  induction d as [|r d IH]; [reflexivity|]. unfold values_of in *. cbn [filter].
  cbn [existsb]. destruct (row_key id k r); cbn [map existsb andb orb]; rewrite IH; reflexivity.
Qed.

Lemma key_label_in id k d r : In r d -> row_key id k r = true ->
  existsb (fun v => label_eqb (agg_value v) (row_label r)) (values_of id k d) = true.
Proof.
  intros Hin Hk. rewrite existsb_values. apply existsb_exists. exists r.
  split; [assumption|]. rewrite Hk. apply label_eqb_refl.
Qed.

Lemma cur_in id k cur d r : In r d -> row_is id k cur r = true ->
  existsb (is_cur cur) (values_of id k d) = true.
Proof.
  intros Hin Hr. rewrite existsb_values. apply existsb_exists. exists r. split; assumption.
Qed.

Lemma in_omap_rows_intro g d r0 r : In r0 d -> g r0 = Some r -> In r (omap_rows g d).
Proof.
  unfold omap_rows. intros Hin Hg. apply in_flat_map. exists r0. split; [assumption|].
  rewrite Hg. left. reflexivity.
Qed.

(** After one scan, every row is a fixed point of any later scan for the same
    bucket and value, and the current bucket is present. *)
Lemma rescan_stable id k keep cur x d :
  pruned keep cur = false ->
  let d1 := omap_rows (scan_row id k keep cur x (values_of id k d)) d
            ++ (if existsb (is_cur cur) (values_of id k d) then [] else [new_row id k cur x]) in
  existsb (is_cur cur) (values_of id k d1) = true /\
  omap_rows (scan_row id k keep cur x (values_of id k d1)) d1 = d1.
Proof.
  intros Hp d1. split.
  - destruct (existsb (is_cur cur) (values_of id k d)) eqn:Hb1.
    + pose proof Hb1 as Hb. rewrite existsb_values in Hb.
      apply existsb_exists in Hb as (r0 & Hin & Hr0).
      apply (cur_in id k cur d1 (with_val r0 x)); [|exact Hr0].
      apply in_or_app. left. apply (in_omap_rows_intro _ _ r0); [exact Hin|].
      apply andb_prop in Hr0 as [Hk0 Hl0]. unfold is_cur in Hl0. cbn [agg_value] in Hl0.
      apply label_eqb_eq in Hl0.
      unfold scan_row. rewrite Hk0, Hl0, Hp, Hb1. cbn [andb].
      unfold row_is. rewrite Hk0, Hl0, label_eqb_refl. reflexivity.
    + apply (cur_in id k cur d1 (new_row id k cur x)).
      * apply in_or_app. right. left. reflexivity.
      * unfold row_is, row_key, new_row. cbn [row_kpi row_kind row_label].
        rewrite Z.eqb_refl, String.eqb_refl, label_eqb_refl. reflexivity.
  - apply omap_rows_id_on. intros r Hin. apply in_app_or in Hin as [Hin|Hin].
    + apply in_omap_rows in Hin as (r0 & Hin0 & Hs).
      unfold scan_row in Hs. destruct (row_key id k r0) eqn:Hk0.
      * rewrite (key_label_in id k d r0 Hin0 Hk0) in Hs.
        destruct (pruned keep (row_label r0)) eqn:Hp0; [discriminate|].
        cbn [andb] in Hs. injection Hs as <-.
        destruct (existsb (is_cur cur) (values_of id k d) && row_is id k cur r0) eqn:Hc.
        -- unfold scan_row.
           change (row_key id k (with_val r0 x)) with (row_key id k r0).
           change (row_label (with_val r0 x)) with (row_label r0).
           rewrite Hk0, Hp0. cbn [andb].
           destruct (_ && row_is id k cur (with_val r0 x)); reflexivity.
        -- unfold scan_row. rewrite Hk0, Hp0. cbn [andb]. f_equal.
           destruct (existsb (is_cur cur) (values_of id k d1) && row_is id k cur r0) eqn:Hc2;
             [|reflexivity].
           apply andb_prop in Hc2 as [_ Hr]. rewrite (cur_in id k cur d r0 Hin0 Hr), Hr in Hc.
           discriminate.
      * cbn [andb] in Hs. unfold row_is in Hs. rewrite Hk0 in Hs. cbn [andb] in Hs.
        rewrite andb_false_r in Hs. injection Hs as <-.
        unfold scan_row, row_is. rewrite Hk0. cbn [andb]. rewrite andb_false_r. reflexivity.
    + destruct (existsb (is_cur cur) (values_of id k d)); [contradiction|].
      destruct Hin as [<-|[]].
      unfold scan_row. change (row_label (new_row id k cur x)) with cur.
      rewrite Hp, andb_false_r. cbn [andb].
      destruct (_ && row_is id k cur (new_row id k cur x)); reflexivity.
Qed.

(** ** Loops and ticks *)

Lemma flat_map_singleton {A B} (g : A -> B) (l : list A) :
  flat_map (fun x => [g x]) l = map g l.
Proof. induction l as [|a l IH]; cbn; [reflexivity|]. rewrite IH. reflexivity. Qed.

Lemma mfor_calls_ok {A} (l : list A) body f :
  (forall x, In x l -> calls_ok (body x) (f x)) -> calls_ok (mfor l body) (flat_map f l).
Proof.
  induction l as [|a l IH]; intros H w.
  - cbn. split; [reflexivity|]. split; [reflexivity|]. exists []. rewrite app_nil_r.
    split; reflexivity.
  - cbn [mfor flat_map]. unfold bind.
    destruct (H a (or_introl eq_refl) w) as (E1 & P1 & seg1 & T1 & C1).
    destruct (body a w) as [r1 w1]. cbn [fst snd] in *. subst r1.
    destruct (IH (fun x Hx => H x (or_intror Hx)) w1) as (E2 & P2 & seg2 & T2 & C2).
    split; [exact E2|]. split; [congruence|]. exists (seg1 ++ seg2).
    rewrite T2, T1, app_assoc. split; [reflexivity|]. rewrite calls_app, C1, C2. reflexivity.
Qed.

Lemma mfor_keeps_proc {A} (l : list A) body :
  (forall x, keeps_proc (body x)) -> keeps_proc (mfor l body).
Proof.
  intros H. induction l as [|a l IH]; intros w; [reflexivity|].
  cbn [mfor]. unfold bind. specialize (H a w).
  destruct (body a w) as [[u|e] w1]; cbn [snd] in *; [|exact H].
  rewrite IH. exact H.
Qed.

Lemma compute_keeps_proc now kpi k : keeps_proc (compute_kpi_values_for_aggregation_kind now kpi k).
Proof. intros w. apply compute_frame. Qed.

Lemma timestamps_kind k now ts : get_timestamps k now = Ok ts -> In k ["D"; "W"; "M"; "Y"].
Proof.
  unfold get_timestamps.
  destruct (String.eqb_spec k "D"); [intros; subst; cbn; tauto|].
  destruct (String.eqb_spec k "W"); [intros; subst; cbn; tauto|].
  destruct (String.eqb_spec k "M"); [intros; subst; cbn; tauto|].
  destruct (String.eqb_spec k "Y"); [intros; subst; cbn; tauto|].
  discriminate.
Qed.

Lemma kind_resolves now k : In k ["D"; "W"; "M"; "Y"] ->
  exists cur keep, get_truncated_value now k = Ok cur /\ get_aggregations_to_keep k now = Ok keep.
Proof.
  intros [<-|[<-|[<-|[<-|[]]]]]; do 2 eexists; split; reflexivity.
Qed.

Lemma compute_calls now kpi k : In k ["D"; "W"; "M"; "Y"] -> is_ok (get_timestamps k now) = true ->
  calls_ok (compute_kpi_values_for_aggregation_kind now kpi k) [(now, unique_id kpi, k)].
Proof.
  intros Hk Hts w.
  destruct (get_timestamps k now) as [ts|e] eqn:Ht; [|discriminate].
  destruct (kind_resolves now k Hk) as (cur & keep & Hc & Hkeep).
  destruct (compute_ok now kpi k w cur keep ts Hc Hkeep Ht) as (E & _ & P & _ & seg & T & _ & C).
  split; [exact E|]. split; [exact P|].
  eexists. rewrite T. split; [reflexivity|].
  rewrite !calls_app, C. destruct (existsb _ _); reflexivity.
Qed.

Lemma windows_ok_kinds p k : windows_ok p = true -> In k ["D"; "W"; "M"; "Y"] ->
  is_ok (get_timestamps k p) = true.
Proof.
  unfold windows_ok. intros H Hk. rewrite forallb_forall in H. exact (H k Hk).
Qed.

Lemma trunc_D p : get_truncated_value p "D" = Ok (day_label p).
Proof. reflexivity. Qed.

Lemma process_tick_noop t w : current_period (proc w) = t -> process_tick t w = (Ok false, w).
Proof.
  intros <-. cbv beta iota delta [process_tick bind get_proc ret].
  rewrite Z.eqb_refl. reflexivity.
Qed.

Lemma process_tick_ok t w :
  current_period (proc w) <> t -> windows_ok (current_period (proc w)) = true ->
  let st := proc w in
  let r := process_tick t w in
  fst r = Ok true /\
  proc (snd r) = {| kpis := kpis st; current_period := t; current_day := day_label t |} /\
  exists seg, trace (snd r) = trace w ++ seg /\
    calls seg = tick_calls (kpis st) (current_period st) (current_day st) t.
Proof.
  intros Hne Hw st r. subst st r.
  cbv beta iota delta [process_tick bind get_proc put_proc lift ret].
  apply Z.eqb_neq in Hne. rewrite Hne.
  set (cp := current_period (proc w)) in *. cbv beta iota zeta.
  assert (Hd : calls_ok
    (mfor (kpis (proc w)) (fun kpi => mfor ["D"; "W"; "M"] (fun agg_kind =>
       compute_kpi_values_for_aggregation_kind cp kpi agg_kind)))
    (flat_map (fun kpi => [(cp, unique_id kpi, "D"); (cp, unique_id kpi, "W");
                           (cp, unique_id kpi, "M")]) (kpis (proc w)))).
  { apply mfor_calls_ok. intros kpi _.
    change [(cp, unique_id kpi, "D"); (cp, unique_id kpi, "W"); (cp, unique_id kpi, "M")]
      with (flat_map (fun k => [(cp, unique_id kpi, k)]) ["D"; "W"; "M"]).
    apply mfor_calls_ok. intros k Hk. apply compute_calls.
    - destruct Hk as [<-|[<-|[<-|[]]]]; cbn; tauto.
    - apply windows_ok_kinds; [exact Hw|]. destruct Hk as [<-|[<-|[<-|[]]]]; cbn; tauto. }
  assert (Hy : calls_ok
    (mfor (kpis (proc w)) (fun kpi => compute_kpi_values_for_aggregation_kind cp kpi "Y"))
    (map (fun kpi => (cp, unique_id kpi, "Y")) (kpis (proc w)))).
  { rewrite <- flat_map_singleton. apply mfor_calls_ok. intros kpi _. apply compute_calls.
    - cbn; tauto.
    - apply windows_ok_kinds; [exact Hw|]. cbn; tauto. }
  destruct (Hd (set_proc w {| kpis := kpis (proc w); current_period := t;
                              current_day := current_day (proc w) |}))
    as (E2 & P2 & seg2 & T2 & C2).
  destruct (mfor _ _ (set_proc w _)) as [r2 w2].
  cbn [fst snd] in E2, P2, T2. subst r2. cbn [proc set_proc trace] in P2, T2.
  rewrite trunc_D, P2. cbn [current_day kpis].
  destruct (label_eqb (current_day (proc w)) (day_label t)) eqn:Hl; cbn [negb].
  - cbn [fst snd]. split; [reflexivity|]. split.
    + rewrite P2. apply label_eqb_eq in Hl. rewrite Hl. reflexivity.
    + exists seg2. split; [exact T2|]. rewrite C2. unfold tick_calls. rewrite Hl, app_nil_r.
      reflexivity.
  - destruct (Hy w2) as (E3 & P3 & seg3 & T3 & C3).
    destruct (mfor _ _ w2) as [r3 w3].
    cbn [fst snd] in E3, P3, T3. subst r3. cbn [fst snd proc set_proc trace].
    split; [reflexivity|]. split.
    + rewrite P3, P2. reflexivity.
    + exists (seg2 ++ seg3). rewrite T3, T2, app_assoc. split; [reflexivity|].
      rewrite calls_app, C2, C3. unfold tick_calls. rewrite Hl. reflexivity.
Qed.

Lemma process_tick_cp t w : current_period (proc (snd (process_tick t w))) = t.
Proof.
  cbv beta iota zeta delta [process_tick bind get_proc put_proc lift ret].
  destruct (current_period (proc w) =? t) eqn:He; [apply Z.eqb_eq in He; exact He|].
  pose proof (mfor_keeps_proc (kpis (proc w)) (fun kpi => mfor ["D"; "W"; "M"] (fun agg_kind =>
       compute_kpi_values_for_aggregation_kind (current_period (proc w)) kpi agg_kind))
       (fun kpi => mfor_keeps_proc _ _ (fun k => compute_keeps_proc _ kpi k))
       (set_proc w {| kpis := kpis (proc w); current_period := t;
                      current_day := current_day (proc w) |})) as P2.
  destruct (mfor _ _ (set_proc w _)) as [[u|e] w2]; cbn [snd proc set_proc] in P2 |- *;
    [|rewrite P2; reflexivity].
  rewrite trunc_D.
  destruct (negb (label_eqb (current_day (proc w2)) (day_label t))).
  - pose proof (mfor_keeps_proc (kpis (proc w2)) (fun kpi =>
       compute_kpi_values_for_aggregation_kind (current_period (proc w)) kpi "Y")
       (fun kpi => compute_keeps_proc _ kpi "Y") w2) as P3.
    destruct (mfor _ _ w2) as [[u3|e3] w3]; cbn [snd proc set_proc current_period] in P3 |- *.
    + rewrite P3, P2. reflexivity.
    + rewrite P3, P2. reflexivity.
  - cbn [snd]. rewrite P2. reflexivity.
Qed.

Lemma restore_keeps_proc : keeps_proc restore_from_db.
Proof.
  intros w. cbv beta iota zeta delta [restore_from_db bind get_proc get_last_current_period lift ret].
  destruct (last_period w) as [lp|]; [|reflexivity].
  cbn [proc log].
  destruct (negb (lp =? current_period (proc w))).
  - pose proof (mfor_keeps_proc (kpis (proc w)) (fun kpi => mfor ["D"; "W"; "M"] (fun agg_kind =>
       compute_kpi_values_for_aggregation_kind lp kpi agg_kind))
       (fun kpi => mfor_keeps_proc _ _ (fun k => compute_keeps_proc _ kpi k))
       (log w EGetLastPeriod)) as P2.
    destruct (mfor _ _ (log w EGetLastPeriod)) as [[u|e] w2]; cbn [snd proc log] in P2 |- *;
      [|exact P2].
    rewrite trunc_D. rewrite P2.
    destruct (negb _); [|exact P2].
    pose proof (mfor_keeps_proc (kpis (proc w)) (fun kpi =>
       compute_kpi_values_for_aggregation_kind lp kpi "Y")
       (fun kpi => compute_keeps_proc _ kpi "Y") w2) as P3.
    rewrite P3, P2. reflexivity.
  - rewrite trunc_D. cbn [proc log].
    destruct (negb _); [|reflexivity].
    exact (mfor_keeps_proc _ _ (fun kpi => compute_keeps_proc _ kpi "Y") (log w EGetLastPeriod)).
Qed.

Lemma run_ticks_ok ticks w :
  windows_ok (current_period (proc w)) = true -> forallb windows_ok ticks = true ->
  exists seg, trace (snd (run_ticks ticks w)) = trace w ++ seg /\
    calls seg = expected_calls (kpis (proc w)) (current_period (proc w))
                  (current_day (proc w)) ticks.
Proof.
  revert w. induction ticks as [|t ts IH]; intros w Hw Hall.
  - exists []. rewrite app_nil_r. split; reflexivity.
  - cbn [forallb] in Hall. apply andb_prop in Hall as [Ht Hts].
    cbn [run_ticks expected_calls]. unfold bind, ret.
    destruct (current_period (proc w) =? t) eqn:He.
    + rewrite (process_tick_noop t w (proj1 (Z.eqb_eq _ _) He)).
      destruct (IH w Hw Hts) as (seg & T & C).
      destruct (run_ticks ts w) as [[bs|e] w2]; cbn [snd] in T |- *; exists seg; split; assumption.
    + apply Z.eqb_neq in He.
      destruct (process_tick_ok t w He Hw) as (E1 & P1 & seg1 & T1 & C1).
      destruct (process_tick t w) as [r1 w1]. cbn [fst snd] in E1, P1, T1. subst r1.
      assert (Hw1 : windows_ok (current_period (proc w1)) = true) by (rewrite P1; exact Ht).
      destruct (IH w1 Hw1 Hts) as (seg2 & T2 & C2). rewrite P1 in C2. cbn in C2.
      destruct (run_ticks ts w1) as [[bs|e] w2]; cbn [snd] in T2 |- *;
        exists (seg1 ++ seg2); rewrite T2, T1, app_assoc; (split; [reflexivity|]);
        rewrite calls_app, C1, C2; reflexivity.
Qed.

Lemma count_kind_app k l1 l2 : count_kind k (l1 ++ l2) = (count_kind k l1 + count_kind k l2)%nat.
Proof. unfold count_kind. rewrite filter_app, length_app. reflexivity. Qed.

Lemma count_tick_Y ks cp cd t :
  count_kind "Y" (tick_calls ks cp cd t) =
  if label_eqb cd (day_label t) then 0%nat else List.length ks.
Proof.
  unfold tick_calls. rewrite count_kind_app.
  assert (H1 : count_kind "Y" (flat_map (fun kpi => [(cp, unique_id kpi, "D");
    (cp, unique_id kpi, "W"); (cp, unique_id kpi, "M")]) ks) = 0%nat).
  { induction ks as [|kpi ks IH]; [reflexivity|]. cbn [flat_map].
    rewrite count_kind_app, IH. reflexivity. }
  rewrite H1. clear H1. destruct (label_eqb cd (day_label t)); [reflexivity|].
  cbn [plus]. unfold count_kind.
  induction ks as [|kpi ks IH]; [reflexivity|]. simpl. rewrite IH. reflexivity.
Qed.

Lemma count_tick_DWM k ks cp cd t : In k ["D"; "W"; "M"] ->
  count_kind k (tick_calls ks cp cd t) = List.length ks.
Proof.
  intros Hk. unfold tick_calls. rewrite count_kind_app.
  assert (H2 : count_kind k (if label_eqb cd (day_label t) then []
                             else map (fun kpi => (cp, unique_id kpi, "Y")) ks) = 0%nat).
  { destruct (label_eqb cd (day_label t)); [reflexivity|].
    induction ks as [|kpi ks IH]; [reflexivity|]. cbn [map].
    change (count_kind k ((cp, unique_id kpi, "Y") :: map (fun kpi => (cp, unique_id kpi, "Y")) ks))
      with (count_kind k ([(cp, unique_id kpi, "Y")] ++ map (fun kpi => (cp, unique_id kpi, "Y")) ks)).
    rewrite count_kind_app, IH.
    destruct Hk as [<-|[<-|[<-|[]]]]; reflexivity. }
  rewrite H2, Nat.add_0_r. clear H2.
  induction ks as [|kpi ks IH]; [reflexivity|]. cbn [flat_map List.length].
  rewrite count_kind_app, IH. destruct Hk as [<-|[<-|[<-|[]]]]; reflexivity.
Qed.

Lemma count_expected_Y ks X ticks : Forall (fun t => day_label t = X) ticks ->
  forall cp cd,
  count_kind "Y" (expected_calls ks cp cd ticks) =
  if negb (label_eqb cd X) && existsb (fun t => negb (cp =? t)) ticks then List.length ks else 0%nat.
Proof.
  induction 1 as [|t ts Hx Hall IH]; intros cp cd.
  - cbn. rewrite andb_false_r. reflexivity.
  - cbn [expected_calls existsb]. destruct (cp =? t) eqn:He; cbn [negb orb].
    + apply IH.
    + rewrite count_kind_app, count_tick_Y, IH, Hx, label_eqb_refl. cbn [negb andb].
      rewrite andb_true_r. destruct (label_eqb cd X); cbn [negb]; lia.
Qed.

Lemma count_expected_DWM ks k ticks : In k ["D"; "W"; "M"] ->
  forall cp cd, count_kind k (expected_calls ks cp cd ticks) = (List.length ks * advancing cp ticks)%nat.
Proof.
  intros Hk. induction ticks as [|t ts IH]; intros cp cd.
  - cbn. lia.
  - cbn [expected_calls advancing]. destruct (cp =? t); [apply IH|].
    rewrite count_kind_app, count_tick_DWM, IH by exact Hk. lia.
Qed.

Lemma day_label_hour dn h : 0 <= h < 24 -> day_label (dn * 24 + h) = day_label (dn * 24).
Proof.
  intros Hh. unfold day_label, year, month, day.
  rewrite (period_day_number_of dn h Hh).
  replace (dn * 24) with (dn * 24 + 0) by lia.
  rewrite (period_day_number_of dn 0) by lia. reflexivity.
Qed.

Lemma day_hours_same_day dn : Forall (fun t => day_label t = day_label (dn * 24)) (day_hours dn).
Proof.
  unfold day_hours. apply Forall_forall. intros t Ht. apply in_map_iff in Ht as (h & <- & Hh).
  apply in_seq in Hh. apply day_label_hour. lia.
Qed.

Lemma advancing_hours base cp n : forall s,
  advancing cp (map (fun h => base + Z.of_nat h) (seq s (S n))) =
  if cp =? base + Z.of_nat s then n else S n.
Proof.
  revert cp. induction n as [|n IH]; intros cp s.
  - cbn [seq map advancing]. destruct (cp =? _); reflexivity.
  - change (seq s (S (S n))) with (s :: seq (S s) (S n)). cbn [map advancing].
    destruct (cp =? base + Z.of_nat s) eqn:E.
    + rewrite IH. apply Z.eqb_eq in E.
      replace (cp =? base + Z.of_nat (S s)) with false by (symmetry; apply Z.eqb_neq; lia).
      reflexivity.
    + rewrite IH.
      replace (base + Z.of_nat s =? base + Z.of_nat (S s)) with false
        by (symmetry; apply Z.eqb_neq; lia).
      reflexivity.
Qed.

Lemma day_hours_advance dn cp : existsb (fun t => negb (cp =? t)) (day_hours dn) = true.
Proof.
  unfold day_hours. cbn [seq map existsb].
  destruct (cp =? dn * 24 + Z.of_nat 0) eqn:E; [|reflexivity]. cbn [negb orb].
  apply Z.eqb_eq in E.
  replace (cp =? dn * 24 + Z.of_nat 1) with false by (symmetry; apply Z.eqb_neq; lia).
  reflexivity.
Qed.

(** ** Bucket labels in the store *)

Lemma labels_omap id k g d :
  (forall r r', g r = Some r' -> row_key id k r' = row_key id k r /\ row_label r' = row_label r) ->
  NoDup (labels_of id k d) ->
  NoDup (labels_of id k (omap_rows g d)) /\ incl (labels_of id k (omap_rows g d)) (labels_of id k d).
Proof.
  intros Hg. induction d as [|r d IH]; intros Hnd; [split; [constructor|intros a []]|].
  unfold labels_of in *. cbn [omap_rows flat_map filter] in *. fold (omap_rows g d) in *.
  destruct (g r) as [r'|] eqn:E.
  - destruct (Hg r r' E) as [Hk Hl]. cbn [app filter]. rewrite Hk.
    destruct (row_key id k r); cbn [map] in *; [rewrite Hl|].
    + inversion Hnd as [|? ? Hni Hnd']; subst.
      destruct (IH Hnd') as [N I]. split.
      * constructor; [|exact N]. intros Hin. apply Hni, I, Hin.
      * intros a [<-|Ha]; [left; reflexivity|right; apply I, Ha].
    + exact (IH Hnd).
  - cbn [app]. destruct (row_key id k r); cbn [map] in *.
    + inversion Hnd as [|? ? Hni Hnd']; subst.
      destruct (IH Hnd') as [N I]. split; [exact N|]. intros a Ha. right. apply I, Ha.
    + exact (IH Hnd).
Qed.

Lemma scan_row_ident id k keep cur x P r r' :
  scan_row id k keep cur x P r = Some r' -> row_ident r' = row_ident r.
Proof.
  unfold scan_row. destruct (_ && _ && _); [discriminate|].
  intros E. injection E as <-. destruct (_ && _); reflexivity.
Qed.

Lemma scan_row_key_label id k keep cur x P id' k' r r' :
  scan_row id k keep cur x P r = Some r' ->
  row_key id' k' r' = row_key id' k' r /\ row_label r' = row_label r.
Proof.
  unfold scan_row. destruct (_ && _ && _); [discriminate|].
  intros E. injection E as <-. destruct (_ && _); split; reflexivity.
Qed.

Lemma label_in_values id k cur d : In cur (labels_of id k d) ->
  existsb (is_cur cur) (values_of id k d) = true.
Proof.
  unfold labels_of. intros H. apply in_map_iff in H as (r & Hl & Hr).
  apply filter_In in Hr as [Hin Hk]. apply (cur_in id k cur d r Hin).
  unfold row_is. rewrite Hk, Hl, label_eqb_refl. reflexivity.
Qed.

Lemma omap_rows_ident g d :
  (forall r r', g r = Some r' -> row_ident r' = row_ident r) ->
  (forall r, g r <> None) ->
  map row_ident (omap_rows g d) = map row_ident d.
Proof.
  intros Hg Hn. induction d as [|r d IH]; [reflexivity|].
  cbn [omap_rows flat_map]. fold (omap_rows g d).
  destruct (g r) as [r'|] eqn:E; [|exfalso; exact (Hn r E)].
  cbn [app map]. rewrite (Hg r r' E), IH. reflexivity.
Qed.

Lemma row_key_new_row id k l v : row_key id k (new_row id k l v) = true.
Proof. unfold row_key, new_row. cbn [row_kpi row_kind]. rewrite Z.eqb_refl, String.eqb_refl. reflexivity. Qed.

Lemma scan_current_rows id k keep cur x P d :
  pruned keep cur = false ->
  (existsb (row_is id k cur) d = true -> existsb (is_cur cur) P = true) ->
  filter (row_is id k cur) (omap_rows (scan_row id k keep cur x P) d) =
  map (fun r => with_val r x) (filter (row_is id k cur) d).
Proof.
  intros Hp. induction d as [|r d IH]; intros HP; [reflexivity|].
  cbn [omap_rows flat_map]. fold (omap_rows (scan_row id k keep cur x P) d).
  rewrite filter_app, IH by (intros H; apply HP; cbn [existsb]; rewrite H; apply orb_true_r).
  cbn [filter]. destruct (row_is id k cur r) eqn:Hr.
  - assert (HPt : existsb (is_cur cur) P = true) by (apply HP; cbn [existsb]; rewrite Hr; reflexivity).
    pose proof Hr as Hr'. unfold row_is in Hr'. apply andb_prop in Hr' as [Hk Hl].
    apply label_eqb_eq in Hl.
    unfold scan_row. rewrite Hk, Hl, Hp, Hr, HPt. cbn [andb filter].
    replace (row_is id k cur (with_val r x)) with true
      by (destruct r; symmetry; exact Hr).
    reflexivity.
  - unfold scan_row. rewrite Hr, andb_false_r.
    destruct (_ && _ && _); reflexivity || (cbn [filter]; rewrite Hr; reflexivity).
Qed.

(** ** Properties of the processor *)

(** C7: calling [compute_kpi_values_for_aggregation_kind] a second time with
    the same reference period, KPI and granularity (the KPI returning the same
    value for the same arguments, as [get_value] is a function) leaves the
    store exactly as the first call left it: same rows, same numeric values,
    no extra row. This holds in every outcome, including when the call raises. *)
Theorem compute_twice_same_store now kpi k w :
  let w1 := snd (compute_kpi_values_for_aggregation_kind now kpi k w) in
  db (snd (compute_kpi_values_for_aggregation_kind now kpi k w1)) = db w1.
Proof.
  intros w1.
  destruct (get_truncated_value now k) as [cur|e] eqn:Hc;
  [destruct (get_aggregations_to_keep k now) as [keep|e] eqn:Hk;
   [destruct (get_timestamps k now) as [ts|e] eqn:Ht|]|];
  try (pose proof (compute_err now kpi k w1) as (_ & Hd & _); [congruence|exact Hd]).
  pose proof (compute_ok now kpi k w cur keep ts Hc Hk Ht) as (_ & D1 & _).
  pose proof (compute_ok now kpi k w1 cur keep ts Hc Hk Ht) as (_ & D2 & _).
  rewrite D2. fold w1 in D1. rewrite D1.
  pose proof (rescan_stable (unique_id kpi) k keep cur (get_value kpi k (start ts) (stop ts))
                (db w) (keep_has_current now k cur keep Hc Hk)) as Hs.
  cbv zeta in Hs. destruct Hs as [-> ->]. apply app_nil_r.
Qed.

(** C1: for a call whose window resolves, the bucket labels of (kpi,
    granularity) stay free of duplicates when they were before; the rows of
    the current bucket afterwards are exactly the stored rows carrying the
    current label, each kept and updated to the fresh value (so duplicates
    already present are not repaired), followed by one new row when no
    existing value carried that label; a value for the current bucket exists,
    and a new value is added exactly when no existing value carried the
    current label. *)
Theorem compute_keeps_buckets_unique now kpi k w ts :
  get_timestamps k now = Ok ts ->
  let w' := snd (compute_kpi_values_for_aggregation_kind now kpi k w) in
  let x := get_value kpi k (start ts) (stop ts) in
  exists cur seg,
    get_truncated_value now k = Ok cur /\
    (NoDup (labels_of (unique_id kpi) k (db w)) -> NoDup (labels_of (unique_id kpi) k (db w'))) /\
    filter (row_is (unique_id kpi) k cur) (db w') =
      map (fun r => with_val r x) (filter (row_is (unique_id kpi) k cur) (db w))
      ++ (if existsb (is_cur cur) (values_of (unique_id kpi) k (db w)) then []
          else [new_row (unique_id kpi) k cur x]) /\
    existsb (is_cur cur) (values_of (unique_id kpi) k (db w')) = true /\
    trace w' = trace w ++ seg /\
    filter is_add seg =
      (if existsb (is_cur cur) (values_of (unique_id kpi) k (db w)) then []
       else [EAdd (unique_id kpi) k cur x]).
Proof.
  intros Ht w' x.
  destruct (kind_resolves now k (timestamps_kind k now ts Ht)) as (cur & keep & Hc & Hk).
  destruct (compute_ok now kpi k w cur keep ts Hc Hk Ht) as (_ & D1 & _ & _ & seg & T & Ha & _).
  fold w' x in D1, T.
  pose proof (keep_has_current now k cur keep Hc Hk) as Hp.
  pose proof (rescan_stable (unique_id kpi) k keep cur x (db w) Hp) as Hs.
  cbv zeta in Hs. rewrite <- D1 in Hs. destruct Hs as [Hcur _].
  exists cur, ([ECompute now (unique_id kpi) k; EGetValues (unique_id kpi) k] ++ seg
          ++ (if existsb (is_cur cur) (values_of (unique_id kpi) k (db w)) then []
              else [EAdd (unique_id kpi) k cur x])).
  split; [exact Hc|]. split; [|split; [|split; [exact Hcur|split; [exact T|]]]].
  - intros Hnd. rewrite D1. unfold labels_of. rewrite filter_app, map_app.
    fold (labels_of (unique_id kpi) k).
    destruct (labels_omap (unique_id kpi) k
                (scan_row (unique_id kpi) k keep cur x (values_of (unique_id kpi) k (db w))) (db w)
                (fun r r' H => scan_row_key_label _ _ _ _ _ _ _ _ r r' H) Hnd) as [N I].
    destruct (existsb (is_cur cur) (values_of (unique_id kpi) k (db w))) eqn:Hb.
    + cbn [filter map]. rewrite app_nil_r. exact N.
    + cbn [filter]. rewrite row_key_new_row. cbn [map].
      unfold new_row at 1. cbn [row_label].
      apply (Permutation_NoDup (Permutation_cons_append _ cur)).
      constructor; [|exact N].
      intros Hin. apply I, label_in_values in Hin. congruence.
  - rewrite D1, filter_app, scan_current_rows by
      (exact Hp || (intros H; apply existsb_exists in H as (r & Hin & Hr);
                    exact (cur_in _ _ _ _ r Hin Hr))).
    f_equal. destruct (existsb _ _); [reflexivity|].
    cbn [filter]. replace (row_is (unique_id kpi) k cur (new_row (unique_id kpi) k cur x)) with true.
    + reflexivity.
    + unfold row_is. rewrite row_key_new_row. unfold new_row. cbn [row_label].
      rewrite label_eqb_refl. reflexivity.
  - rewrite !filter_app, Ha. cbn [filter is_add app].
    destruct (existsb _ _); reflexivity.
Qed.

Lemma compute_keeps_buckets_unique_witness :
  get_timestamps "D" p20240315 = Ok {| start := 1710460800; stop := 1710547200 |} /\
  let w := world0 [k1] p20240315 (LDay 2024 3 15)
             [new_row 1 "D" (LDay 2024 3 15) 5; new_row 1 "D" (LDay 2024 3 15) 6] None in
  let w' := snd (compute_kpi_values_for_aggregation_kind p20240315 k1 "D" w) in
  let x := get_value k1 "D" 1710460800 1710547200 in
  exists cur seg,
    get_truncated_value p20240315 "D" = Ok cur /\
    (NoDup (labels_of 1 "D" (db w)) -> NoDup (labels_of 1 "D" (db w'))) /\
    filter (row_is 1 "D" cur) (db w') =
      map (fun r => with_val r x) (filter (row_is 1 "D" cur) (db w))
      ++ (if existsb (is_cur cur) (values_of 1 "D" (db w)) then [] else [new_row 1 "D" cur x]) /\
    existsb (is_cur cur) (values_of 1 "D" (db w')) = true /\
    trace w' = trace w ++ seg /\
    filter is_add seg =
      (if existsb (is_cur cur) (values_of 1 "D" (db w)) then [] else [EAdd 1 "D" cur x]).
Proof.
  assert (H1 : get_timestamps "D" p20240315 = Ok {| start := 1710460800; stop := 1710547200 |})
    by (vm_compute; reflexivity).
  split; [exact H1|].
  exact (compute_keeps_buckets_unique p20240315 k1 "D"
           (world0 [k1] p20240315 (LDay 2024 3 15)
              [new_row 1 "D" (LDay 2024 3 15) 5; new_row 1 "D" (LDay 2024 3 15) 6] None)
           {| start := 1710460800; stop := 1710547200 |} H1).
Defined.

(** C1, counterexample: two stale values carrying the current daily label
    both survive the call (both are updated to the fresh value). *)
Lemma compute_keeps_duplicates :
  List.length (filter (row_is 1 "D" (LDay 2024 3 15))
    (db (snd (compute_kpi_values_for_aggregation_kind p20240315 k1 "D"
      (world0 [k1] p20240315 (LDay 2024 3 15)
         [new_row 1 "D" (LDay 2024 3 15) 5; new_row 1 "D" (LDay 2024 3 15) 6] None))))) = 2%nat.
Proof. vm_compute. reflexivity. Qed.

(** C2: the monthly window of any December raises [ValueError] (the stop is
    built as [datetime(year, 13, 1)]); for 2024-03-15 the window is
    [2024-03-01T00:00, 2024-04-01T00:00). *)
Theorem monthly_window_december_raises :
  (forall p, month p = 12 -> get_timestamps "M" p = Err "ValueError") /\
  get_timestamps "M" p20240315 = Ok {| start := 1709251200; stop := 1711929600 |} /\
  get_timestamps "M" p20241215 = Err "ValueError".
Proof.
  split; [|split; vm_compute; reflexivity].
  intros p Hm. unfold get_timestamps. cbn [String.eqb Ascii.eqb Bool.eqb negb].
  rewrite Hm. unfold datetime.
  destruct ((MINYEAR <=? year p) && (year p <=? MAXYEAR)); [|reflexivity].
  cbn [negb]. destruct ((1 <=? 1) && (1 <=? days_in_month (year p) 12)); reflexivity.
Qed.

(** C3: the buckets kept are the day labels of the reference shifted back
    0..6 days, the week labels shifted back 0..3 weeks and the month labels
    shifted back 0..11 months, each list without repetition; Yearly keeps
    everything, and a Yearly call never removes a row of the store nor
    changes its identity (kpi, granularity, label): it can only append. *)
Theorem retention_windows p :
  get_aggregations_to_keep "D" p = Ok (Some (map day_label (shifted_periods p rd_days_only 7))) /\
  NoDup (map day_label (shifted_periods p rd_days_only 7)) /\
  get_aggregations_to_keep "W" p = Ok (Some (map week_label (shifted_periods p rd_weeks 4))) /\
  NoDup (map week_label (shifted_periods p rd_weeks 4)) /\
  get_aggregations_to_keep "M" p = Ok (Some (map month_label (shifted_periods p rd_months_only 12))) /\
  NoDup (map month_label (shifted_periods p rd_months_only 12)) /\
  get_aggregations_to_keep "Y" p = Ok None /\
  forall kpi w, exists added,
    map row_ident (db (snd (compute_kpi_values_for_aggregation_kind p kpi "Y" w))) =
    map row_ident (db w) ++ added.
Proof.
  split; [apply keep_D|]. split; [apply keep_D_NoDup|].
  split; [apply keep_W|]. split; [apply keep_W_NoDup|].
  split; [apply keep_M|]. split; [apply keep_M_NoDup|].
  split; [reflexivity|].
  intros kpi w. destruct (get_timestamps "Y" p) as [ts|e] eqn:Ht.
  - destruct (compute_ok p kpi "Y" w (year_label p) None ts eq_refl eq_refl Ht)
      as (_ & D1 & _). rewrite D1, map_app, omap_rows_ident.
    + eexists. reflexivity.
    + intros r r'. apply scan_row_ident.
    + intros r. unfold scan_row. cbn [pruned]. rewrite andb_false_r. cbn [andb]. discriminate.
  - destruct (compute_err p kpi "Y" w) as (_ & Hd & _); [congruence|].
    exists []. rewrite Hd, app_nil_r. reflexivity.
Qed.

(** C4: over the 24 hourly ticks of one day, every period resolving its
    windows, each KPI gets one Yearly recomputation when the processor's
    [current_day] was another day and none when it already was this day (a
    processor created during the day); Daily, Weekly and Monthly are
    recomputed for each KPI on each of the 24 ticks that moves the period,
    that is 23 times when the processor already stood at the first hour. *)
Theorem yearly_once_per_day w dn :
  windows_ok (current_period (proc w)) = true ->
  forallb windows_ok (day_hours dn) = true ->
  exists seg, trace (snd (run_ticks (day_hours dn) w)) = trace w ++ seg /\
    count_kind "Y" (calls seg) =
      (if label_eqb (current_day (proc w)) (day_label (dn * 24)) then 0%nat
       else List.length (kpis (proc w))) /\
    (forall k, In k ["D"; "W"; "M"] ->
       count_kind k (calls seg) =
       (List.length (kpis (proc w)) * (if Z.eqb (current_period (proc w)) (dn * 24) then 23 else 24))%nat).
Proof.
  intros Hw Hall. destruct (run_ticks_ok (day_hours dn) w Hw Hall) as (seg & T & C).
  exists seg. split; [exact T|]. split.
  - rewrite C, (count_expected_Y _ _ _ (day_hours_same_day dn)), day_hours_advance, andb_true_r.
    destruct (label_eqb _ _); reflexivity.
  - intros k Hk. rewrite C, (count_expected_DWM _ _ _ Hk). f_equal.
    unfold day_hours. rewrite (advancing_hours (dn * 24) _ 23 0).
    change (Z.of_nat 0) with 0. rewrite Z.add_0_r. reflexivity.
Qed.

Lemma yearly_once_per_day_witness :
  windows_ok (current_period (proc (world0 [k1] p20240315 (LDay 2024 3 14) [] None))) = true /\
  forallb windows_ok (day_hours (days_from_civil 2024 3 15)) = true /\
  let w := world0 [k1] p20240315 (LDay 2024 3 14) [] None in
  let dn := days_from_civil 2024 3 15 in
  exists seg, trace (snd (run_ticks (day_hours dn) w)) = trace w ++ seg /\
    count_kind "Y" (calls seg) =
      (if label_eqb (current_day (proc w)) (day_label (dn * 24)) then 0%nat
       else List.length (kpis (proc w))) /\
    (forall k, In k ["D"; "W"; "M"] ->
       count_kind k (calls seg) =
       (List.length (kpis (proc w)) * (if Z.eqb (current_period (proc w)) (dn * 24) then 23 else 24))%nat).
Proof.
  assert (H1 : windows_ok (current_period (proc (world0 [k1] p20240315 (LDay 2024 3 14) [] None)))
               = true) by (vm_compute; reflexivity).
  assert (H2 : forallb windows_ok (day_hours (days_from_civil 2024 3 15)) = true)
    by (vm_compute; reflexivity).
  split; [exact H1|]. split; [exact H2|].
  exact (yearly_once_per_day _ _ H1 H2).
Defined.

(** C4, counterexample: a processor created at 2024-03-15T00:00 (its
    [current_day] is that day) runs no Yearly recomputation over the 24
    hourly ticks of the day, while D/W/M run on the 23 ticks that advance. *)
Lemma fresh_processor_no_yearly :
  init_processor (days_from_civil 2024 3 15 * 24) =
    Ok {| kpis := []; current_period := days_from_civil 2024 3 15 * 24;
          current_day := LDay 2024 3 15 |} /\
  let w := world0 [k1] (days_from_civil 2024 3 15 * 24) (LDay 2024 3 15) [] None in
  let cs := calls (trace (snd (run_ticks (day_hours (days_from_civil 2024 3 15)) w))) in
  count_kind "Y" cs = 0%nat /\ count_kind "D" cs = 23%nat.
Proof. vm_compute. split; [reflexivity|]. split; reflexivity. Qed.

(** C5: with the persisted period in December, [restore_from_db] runs the
    Daily and Weekly recomputations of the first KPI, then raises
    [ValueError] in the Monthly one: the other KPIs and the Yearly
    recomputation are not run. The processor state is left as it was. *)
Theorem restore_december_raises :
  let w := world0 [k1; {| unique_id := 2; get_value := fun _ _ _ => 0 |}]
             p20240315 (LDay 2024 3 15) [] (Some p20241215) in
  let r := restore_from_db w in
  fst r = Err "ValueError" /\
  calls (trace (snd r)) = [(p20241215, 1, "D"); (p20241215, 1, "W"); (p20241215, 1, "M")] /\
  proc (snd r) = proc w.
Proof. vm_compute. split; [reflexivity|]. split; reflexivity. Qed.

(** C6: a tick at the stored [current_period] returns [false] and leaves the
    whole world as it was: processor state, store and the record of calls
    (no persister read or write). *)
Theorem tick_same_period_noop t w :
  current_period (proc w) = t -> process_tick t w = (Ok false, w).
Proof. apply process_tick_noop. Qed.

Lemma tick_same_period_noop_witness :
  current_period (proc (world0 [k1] p20240315 (LDay 2024 3 15) [] None)) = p20240315 /\
  process_tick p20240315 (world0 [k1] p20240315 (LDay 2024 3 15) [] None) =
    (Ok false, world0 [k1] p20240315 (LDay 2024 3 15) [] None).
Proof.
  assert (H : current_period (proc (world0 [k1] p20240315 (LDay 2024 3 15) [] None)) = p20240315)
    by reflexivity.
  split; [exact H|]. exact (tick_same_period_noop _ _ H).
Defined.

(** C8: a granularity other than D, W, M and Y makes both resolvers raise
    [AttributeError]. *)
Theorem unknown_granularity_attribute_error k p :
  ~ In k ["D"; "W"; "M"; "Y"] ->
  get_timestamps k p = Err "AttributeError" /\ get_aggregations_to_keep k p = Err "AttributeError".
Proof.
  intros Hk. unfold get_timestamps, get_aggregations_to_keep.
  destruct (String.eqb_spec k "D"); [subst; exfalso; apply Hk; cbn; tauto|].
  destruct (String.eqb_spec k "W"); [subst; exfalso; apply Hk; cbn; tauto|].
  destruct (String.eqb_spec k "M"); [subst; exfalso; apply Hk; cbn; tauto|].
  destruct (String.eqb_spec k "Y"); [subst; exfalso; apply Hk; cbn; tauto|].
  split; reflexivity.
Qed.

Lemma unknown_granularity_attribute_error_witness :
  ~ In "H" ["D"; "W"; "M"; "Y"] /\
  get_timestamps "H" p20240315 = Err "AttributeError" /\
  get_aggregations_to_keep "H" p20240315 = Err "AttributeError".
Proof.
  assert (H : ~ In "H" ["D"; "W"; "M"; "Y"])
    by (cbn; intros [E|[E|[E|[E|[]]]]]; discriminate E).
  split; [exact H|]. exact (unknown_granularity_attribute_error "H" p20240315 H).
Defined.

(** C8, counterexample: the error raised for "H" is not [InvalidGranularity]. *)
Lemma hourly_granularity_not_invalid_granularity :
  get_timestamps "H" p20240315 <> Err "InvalidGranularity" /\
  get_aggregations_to_keep "H" p20240315 <> Err "InvalidGranularity".
Proof. vm_compute. split; discriminate. Qed.

(** C9: after any tick the stored [current_period] is the tick's period,
    whatever it is and even when the tick raises; [restore_from_db] never
    changes the processor state. *)
Theorem tick_sets_current_period t w :
  current_period (proc (snd (process_tick t w))) = t /\
  proc (snd (restore_from_db w)) = proc w.
Proof. split; [apply process_tick_cp|apply restore_keeps_proc]. Qed.

(** C9, counterexample: a tick one hour before the stored period moves
    [current_period] back. *)
Lemma tick_rewinds_current_period :
  current_period (proc (snd (process_tick (p20240315 - 1)
    (world0 [k1] p20240315 (LDay 2024 3 15) [] None)))) <
  current_period (proc (world0 [k1] p20240315 (LDay 2024 3 15) [] None)).
Proof. vm_compute. reflexivity. Qed.

(** C10: the tick that crosses from 2024-12-31T23:00 to 2025-01-01T00:00
    computes with the pre-advance period, but raises [ValueError] in its
    Monthly recomputation, so the Yearly bucket of 2024 is not recomputed and
    [current_day] stays on 2024-12-31; the next tick (01:00, same day) runs
    the Yearly recomputation with 2025-01-01T00:00 and creates the 2025
    bucket. *)
Theorem year_crossing_tick_raises :
  let w := world0 [k1] p20241231_23 (LDay 2024 12 31) [] None in
  let r1 := process_tick p20250101_00 w in
  let r2 := process_tick (p20250101_00 + 1) (snd r1) in
  fst r1 = Err "ValueError" /\
  calls (trace (snd r1)) = [(p20241231_23, 1, "D"); (p20241231_23, 1, "W"); (p20241231_23, 1, "M")] /\
  current_day (proc (snd r1)) = LDay 2024 12 31 /\
  fst r2 = Ok true /\
  calls (trace (snd r2)) = calls (trace (snd r1)) ++
    [(p20250101_00, 1, "D"); (p20250101_00, 1, "W"); (p20250101_00, 1, "M");
     (p20250101_00, 1, "Y")] /\
  map row_label (filter (fun r => String.eqb (row_kind r) "Y") (db (snd r2))) = [LYear 2025].
Proof. vm_compute. repeat split. Qed.

(** ** Calendar arithmetic *)


Lemma era_cum y :
  (y / 400) * 146097 + ((y mod 400) * 365 + (y mod 400) / 4 - (y mod 400) / 100) = cum_days y.
Proof.
  unfold cum_days.
  pose proof (Z.div_mod y 400 ltac:(lia)) as Hy.
  pose proof (Z.mod_pos_bound y 400 ltac:(lia)) as Hr.
  remember (y / 400) as q eqn:Hq. remember (y mod 400) as r eqn:Hrr.
  clear Hq Hrr. subst y.
  replace ((400 * q + r) / 4) with (r / 4 + 100 * q)
    by (rewrite <- Z.div_add by lia; f_equal; ring).
  replace ((400 * q + r) / 100) with (r / 100 + 4 * q)
    by (rewrite <- Z.div_add by lia; f_equal; ring).
  replace ((400 * q + r) / 400) with (r / 400 + q)
    by (rewrite <- Z.div_add by lia; f_equal; ring).
  assert (r / 400 = 0) by (apply Z.div_small; lia). lia.
Qed.

Lemma dfc_cum y m d : days_from_civil y m d =
  cum_days (if m <=? 2 then y - 1 else y)
  + ((153 * (if 2 <? m then m - 3 else m + 9) + 2) / 5 + d - 1) - 719468.
Proof. unfold days_from_civil, doe_of_civil. cbv zeta. rewrite <- era_cum. lia. Qed.

Lemma div_step4 y : y / 4 = (y - 1) / 4 + (if y mod 4 =? 0 then 1 else 0).
Proof. destruct (Z.eqb_spec (y mod 4) 0); Z.div_mod_to_equations; lia. Qed.
Lemma div_step100 y : y / 100 = (y - 1) / 100 + (if y mod 100 =? 0 then 1 else 0).
Proof. destruct (Z.eqb_spec (y mod 100) 0); Z.div_mod_to_equations; lia. Qed.
Lemma div_step400 y : y / 400 = (y - 1) / 400 + (if y mod 400 =? 0 then 1 else 0).
Proof. destruct (Z.eqb_spec (y mod 400) 0); Z.div_mod_to_equations; lia. Qed.

Lemma cum_step y : cum_days y = cum_days (y - 1) + 365 + (if is_leap y then 1 else 0).
Proof.
  assert (H1 : y mod 100 = 0 -> y mod 4 = 0) by (intros; Z.div_mod_to_equations; lia).
  assert (H2 : y mod 400 = 0 -> y mod 100 = 0) by (intros; Z.div_mod_to_equations; lia).
  unfold cum_days, is_leap.
  rewrite (div_step4 y), (div_step100 y), (div_step400 y).
  generalize ((y - 1) / 4) ((y - 1) / 100) ((y - 1) / 400). intros a b c.
  destruct (Z.eqb_spec (y mod 4) 0), (Z.eqb_spec (y mod 100) 0), (Z.eqb_spec (y mod 400) 0);
    cbn [andb orb negb]; lia.
Qed.

Lemma cum_mono a b : a <= b -> cum_days a <= cum_days b.
Proof.
  intros H. replace b with (a + Z.of_nat (Z.to_nat (b - a))) by lia.
  induction (Z.to_nat (b - a)) as [|n IH]; [rewrite Z.add_0_r; lia|].
  rewrite Nat2Z.inj_succ. pose proof (cum_step (a + Z.succ (Z.of_nat n))) as E.
  replace (a + Z.succ (Z.of_nat n) - 1) with (a + Z.of_nat n) in E by lia.
  destruct (is_leap _); lia.
Qed.

Ltac civil_cases m :=
  let H := fresh in
  assert (H : m = 1 \/ m = 2 \/ m = 3 \/ m = 4 \/ m = 5 \/ m = 6 \/ m = 7 \/ m = 8 \/
              m = 9 \/ m = 10 \/ m = 11 \/ m = 12) by lia;
  repeat destruct H as [H|H]; subst m.

Ltac civil_reduce :=
  unfold days_in_month;
  repeat match goal with
  | |- context [?a <=? ?b] => destruct (Z.leb_spec a b); try (exfalso; lia)
  | |- context [?a <? ?b] => destruct (Z.ltb_spec a b); try (exfalso; lia)
  | |- context [?a =? ?b] => destruct (Z.eqb_spec a b); try (exfalso; lia)
  end; cbn [orb andb negb];
  repeat match goal with
  | |- context [?a / 5] => let v := eval vm_compute in (a / 5) in change (a / 5) with v
  end.

Lemma month_next y m : 1 <= m <= 11 ->
  days_from_civil y (m + 1) 1 = days_from_civil y m 1 + days_in_month y m.
Proof.
  intros Hm. rewrite !dfc_cum. civil_cases m; civil_reduce; try lia;
  rewrite (cum_step y); destruct (is_leap y); lia.

Qed.

Lemma year_next y : days_from_civil (y + 1) 1 1 = days_from_civil y 12 1 + 31.
Proof.
  rewrite !dfc_cum. replace (y + 1 - 1) with y by ring. civil_reduce. lia.
Qed.

Lemma year_length y : days_from_civil (y + 1) 1 1 =
  days_from_civil y 1 1 + 365 + (if is_leap y then 1 else 0).
Proof.
  rewrite !dfc_cum. replace (y + 1 - 1) with y by ring. civil_reduce.
  rewrite (cum_step y). lia.
Qed.

Lemma dfc_day y m d : days_from_civil y m d = days_from_civil y m 1 + (d - 1).
Proof. rewrite !dfc_cum. lia. Qed.

Lemma month_in_year y m : 1 <= m <= 12 ->
  days_from_civil y 1 1 <= days_from_civil y m 1 /\
  days_from_civil y m 1 + days_in_month y m <= days_from_civil (y + 1) 1 1.
Proof.
  intros Hm. rewrite !dfc_cum. replace (y + 1 - 1) with y by ring.
  civil_cases m; civil_reduce; rewrite (cum_step y); destruct (is_leap y); lia.
Qed.

Lemma jan1_mono a b : a <= b -> days_from_civil a 1 1 <= days_from_civil b 1 1.
Proof. intros H. rewrite !dfc_cum. civil_reduce. pose proof (cum_mono (a - 1) (b - 1)). lia. Qed.

Lemma period_date p :
  days_from_civil (year p) (month p) (day p) = period_day_number p /\
  1 <= month p <= 12 /\ 1 <= day p <= days_in_month (year p) (month p).
Proof.
  unfold year, month, day. pose proof (days_civil_days (period_day_number p)) as H.
  destruct (civil_from_days (period_day_number p)) as [[y m] d]. exact H.
Qed.

Lemma month_bracket p :
  days_from_civil (year p) (month p) 1 <= period_day_number p <
  days_from_civil (year p) (month p) 1 + days_in_month (year p) (month p).
Proof.
  destruct (period_date p) as (Hz & Hm & Hd). rewrite dfc_day in Hz. lia.
Qed.

Lemma year_bracket p :
  days_from_civil (year p) 1 1 <= period_day_number p < days_from_civil (year p + 1) 1 1.
Proof.
  pose proof (month_bracket p). destruct (period_date p) as (_ & Hm & _).
  pose proof (month_in_year (year p) (month p) Hm). lia.
Qed.

Lemma year_of_days q y :
  days_from_civil y 1 1 <= period_day_number q < days_from_civil (y + 1) 1 1 -> year q = y.
Proof.
  intros H. pose proof (year_bracket q) as Hq.
  destruct (Z.lt_trichotomy (year q) y) as [Hl|[He|Hg]]; [|exact He|].
  - pose proof (jan1_mono (year q + 1) y ltac:(lia)). lia.
  - pose proof (jan1_mono (y + 1) (year q) ltac:(lia)). lia.
Qed.

Lemma month_of_days q y m : 1 <= m <= 12 ->
  days_from_civil y m 1 <= period_day_number q < days_from_civil y m 1 + days_in_month y m ->
  year q = y /\ month q = m.
Proof.
  intros Hm H.
  set (d := period_day_number q - days_from_civil y m 1 + 1).
  assert (Hz : period_day_number q = days_from_civil y m d)
    by (rewrite (dfc_day y m d); unfold d; lia).
  unfold year, month. rewrite Hz, civil_days_civil by (unfold d; lia). split; reflexivity.
Qed.

Lemma last_day_next :
  days_from_civil MAXYEAR 12 31 + 1 = days_from_civil (MAXYEAR + 1) 1 1.
Proof. vm_compute. reflexivity. Qed.

Lemma year_range p :
  (days_from_civil MINYEAR 1 1 <=? period_day_number p) &&
  (period_day_number p <=? days_from_civil MAXYEAR 12 31) =
  (MINYEAR <=? year p) && (year p <=? MAXYEAR).
Proof.
  pose proof (year_bracket p) as Hb. pose proof last_day_next as Hl.
  destruct (Z.leb_spec MINYEAR (year p)) as [H1|H1];
  [pose proof (jan1_mono MINYEAR (year p) H1)|pose proof (jan1_mono (year p + 1) MINYEAR ltac:(lia))];
  (destruct (Z.leb_spec (year p) MAXYEAR) as [H2|H2];
  [pose proof (jan1_mono (year p + 1) (MAXYEAR + 1) ltac:(lia))|pose proof (jan1_mono (MAXYEAR + 1) (year p) ltac:(lia))]);
  cbn [andb];
  repeat match goal with |- context [?a <=? ?b] => destruct (Z.leb_spec a b) end;
  cbn [andb]; try reflexivity; lia.
Qed.

Lemma day_label_eq q p : day_label q = day_label p <-> period_day_number q = period_day_number p.
Proof.
  split; [|unfold day_label, year, month, day; intros ->; reflexivity].
  unfold day_label, year, month, day. intros E. apply civil_from_days_inj.
  destruct (civil_from_days (period_day_number q)) as [[y1 m1] d1].
  destruct (civil_from_days (period_day_number p)) as [[y2 m2] d2].
  congruence.
Qed.

Lemma datetime_ok y m d :
  1 <= m <= 12 -> 1 <= d <= days_in_month y m ->
  datetime y m d =
  if (MINYEAR <=? y) && (y <=? MAXYEAR) then Ok (days_from_civil y m d) else Err "ValueError".
Proof.
  intros Hm Hd. unfold datetime.
  replace ((1 <=? m) && (m <=? 12)) with true by (symmetry; apply andb_true_iff; split; apply Z.leb_le; lia).
  replace ((1 <=? d) && (d <=? days_in_month y m)) with true
    by (symmetry; apply andb_true_iff; split; apply Z.leb_le; lia).
  destruct ((MINYEAR <=? y) && (y <=? MAXYEAR)); reflexivity.
Qed.

Ltac cmp_cases :=
  repeat (match goal with
          | |- context [?a <=? ?b] => destruct (Z.leb_spec a b)
          | |- context [?a <? ?b] => destruct (Z.ltb_spec a b)
          | |- context [?a =? ?b] => destruct (Z.eqb_spec a b)
          end; cbn [andb orb negb rbind]; try (exfalso; lia)).

Lemma first_month_start y m : MINYEAR <= y -> 1 <= m <= 12 ->
  (days_from_civil y m 1 - 1 <? days_from_civil MINYEAR 1 1) = (y =? MINYEAR) && (m =? 1).
Proof.
  intros Hy Hm. unfold MINYEAR in *.
  destruct (Z.eqb_spec y 1) as [->|Hy1].
  - civil_cases m; vm_compute; reflexivity.
  - pose proof (month_in_year y m Hm) as [H1 _].
    pose proof (jan1_mono 2 y ltac:(lia)) as H2.
    assert (H3 : days_from_civil 2 1 1 = days_from_civil 1 1 1 + 365) by (vm_compute; reflexivity).
    cbn [andb]. apply Z.ltb_ge. lia.
Qed.

(** ** Further properties of the processor *)

(** [Processor.get_timestamps] for "D": the window is the reference's day,
    from its midnight to the next one. It raises [ValueError] outside
    years 1..9999 and on 0001-01-01 (whose [timestamp()] raises), and
    [OverflowError] on 9999-12-31, whose next midnight [datetime] cannot
    represent. An hour [q] lies in the window exactly when
    its day label is the reference's. *)
Theorem daily_window p :
  let z := period_day_number p in
  get_timestamps "D" p =
    (if (days_from_civil MINYEAR 1 1 <=? z) && (z <=? days_from_civil MAXYEAR 12 31) then
       if z =? days_from_civil MINYEAR 1 1 then Err "ValueError"
       else if z <? days_from_civil MAXYEAR 12 31
       then Ok {| start := z * 86400; stop := (z + 1) * 86400 |}
       else Err "OverflowError"
     else Err "ValueError") /\
  (forall q, day_label q = day_label p <-> z * 86400 <= q * 3600 < (z + 1) * 86400).
Proof.
  intros z. split.
  - unfold get_timestamps. cbn [String.eqb Ascii.eqb Bool.eqb].
    destruct (period_date p) as (Hz & Hm & Hd).
    rewrite (datetime_ok _ _ _ Hm Hd), Hz, <- year_range. fold z.
    destruct ((days_from_civil MINYEAR 1 1 <=? z) && (z <=? days_from_civil MAXYEAR 12 31)) eqn:E;
      [|reflexivity].
    apply andb_true_iff in E as [E1 E2]. apply Z.leb_le in E1, E2.
    cbn [rbind]. unfold add_days, timestamp. cbv zeta.
    cmp_cases; reflexivity.
  - intros q. rewrite day_label_eq. unfold z, period_day_number.
    split; intros H; Z.div_mod_to_equations; lia.
Qed.

(** [Processor.get_timestamps] for "W": the window is the seven days from
    the Monday on or before the reference's day. It raises [ValueError]
    outside years 1..9999 and in the first week of year 1 (that Monday is
    0001-01-01, whose [timestamp()] raises), and [OverflowError] when the
    following Monday lies past 9999-12-31. *)
Theorem weekly_window p :
  let z := period_day_number p in
  let s := z - (z + 3) mod 7 in
  get_timestamps "W" p =
    (if (days_from_civil MINYEAR 1 1 <=? z) && (z <=? days_from_civil MAXYEAR 12 31) then
       if s =? days_from_civil MINYEAR 1 1 then Err "ValueError"
       else if s + 7 <=? days_from_civil MAXYEAR 12 31
       then Ok {| start := s * 86400; stop := (s + 7) * 86400 |}
       else Err "OverflowError"
     else Err "ValueError") /\
  weekday (s * 24) = 1 /\ s <= z < s + 7.
Proof.
  intros z s.
  assert (Hs : s <= z < s + 7) by (unfold s; pose proof (Z.mod_pos_bound (z + 3) 7); lia).
  assert (Hmon : (s + 3) mod 7 = 0).
  { unfold s. replace (z - (z + 3) mod 7 + 3) with (7 * ((z + 3) / 7)).
    - rewrite Z.mul_comm, Z.mod_mul by lia. reflexivity.
    - pose proof (Z.div_mod (z + 3) 7). lia. }
  split; [|split; [|exact Hs]].
  - unfold get_timestamps. cbn [String.eqb Ascii.eqb Bool.eqb].
    destruct (period_date p) as (Hz & Hm & Hd).
    rewrite (datetime_ok _ _ _ Hm Hd), Hz, <- year_range. fold z.
    destruct ((days_from_civil MINYEAR 1 1 <=? z) && (z <=? days_from_civil MAXYEAR 12 31)) eqn:E;
      [|reflexivity].
    apply andb_true_iff in E as [E1 E2]. apply Z.leb_le in E1, E2.
    assert (Hfirst : (days_from_civil MINYEAR 1 1 + 3) mod 7 = 0) by (vm_compute; reflexivity).
    assert (Hlo : days_from_civil MINYEAR 1 1 <= s).
    { unfold s in *. revert E1 Hfirst. generalize (days_from_civil MINYEAR 1 1). intros f Hf1 Hf.
      clear -Hf1 Hf. Z.div_mod_to_equations. lia. }
    cbn [rbind]. unfold add_days, timestamp, weekday. cbv zeta. fold z.
    replace (z + (1 - ((z + 3) mod 7 + 1))) with s by (unfold s; ring).
    cmp_cases; reflexivity.
  - unfold weekday, period_day_number. rewrite Z.div_mul by lia. rewrite Hmon. reflexivity.
Qed.

(** [Processor.get_timestamps] for "M": outside December the window runs
    from the first of the reference's month for the length of that month. It
    raises [ValueError] in December, in January of year 1 (the [timestamp()]
    of 0001-01-01 raises) and outside years 1..9999. An hour [q]
    lies in that span exactly when its month label is the reference's. *)
Theorem monthly_window p :
  let y := year p in
  let m := month p in
  let s := days_from_civil y m 1 in
  get_timestamps "M" p =
    (if (MINYEAR <=? y) && (y <=? MAXYEAR) && negb (m =? 12)
        && negb ((y =? MINYEAR) && (m =? 1))
     then Ok {| start := s * 86400; stop := (s + days_in_month y m) * 86400 |}
     else Err "ValueError") /\
  (forall q, month_label q = month_label p <->
             s * 86400 <= q * 3600 < (s + days_in_month y m) * 86400).
Proof.
  intros y m s. destruct (period_date p) as (_ & Hm & _). fold m y in Hm.
  pose proof (days_in_month_range y m) as Hdim. split.
  - unfold get_timestamps. cbn [String.eqb Ascii.eqb Bool.eqb]. fold y m.
    rewrite (datetime_ok y m 1) by lia. fold s.
    destruct ((MINYEAR <=? y) && (y <=? MAXYEAR)) eqn:E; [|reflexivity].
    cbn [rbind andb]. unfold datetime. rewrite E. cbn [negb].
    destruct (Z.eqb_spec m 12) as [Hm12|Hm12].
    + rewrite Hm12. reflexivity.
    + pose proof (days_in_month_range y (m + 1)).
      replace ((1 <=? m + 1) && (m + 1 <=? 12)) with true
        by (symmetry; apply andb_true_iff; split; apply Z.leb_le; lia).
      replace ((1 <=? 1) && (1 <=? days_in_month y (m + 1))) with true
        by (symmetry; apply andb_true_iff; split; apply Z.leb_le; lia).
      cbn [negb rbind andb]. rewrite month_next by lia. fold s.
      apply andb_true_iff in E as [E1 _]. apply Z.leb_le in E1.
      unfold timestamp. pose proof (first_month_start y m E1 Hm) as Hf. fold s in Hf. rewrite Hf.
      destruct ((y =? MINYEAR) && (m =? 1)); [reflexivity|]. cbn [negb rbind].
      assert (Hs1 : days_from_civil MINYEAR 1 1 <= s).
      { unfold s. pose proof (month_in_year y m Hm) as [H1 _].
        pose proof (jan1_mono MINYEAR y E1). lia. }
      replace (s + days_in_month y m - 1 <? days_from_civil MINYEAR 1 1) with false
        by (symmetry; apply Z.ltb_ge; lia).
      reflexivity.
  - intros q. pose proof (month_bracket q) as Hq. pose proof (month_bracket p) as Hp.
    fold y m s in Hp.
    split.
    + unfold month_label. intros E. injection E as Ey Em. rewrite Ey, Em in Hq. fold y m s in Hq.
      unfold period_day_number in Hq. Z.div_mod_to_equations. lia.
    + intros H. unfold month_label.
      assert (Hd : s <= period_day_number q < s + days_in_month y m)
        by (unfold period_day_number; Z.div_mod_to_equations; lia).
      destruct (month_of_days q y m Hm Hd) as [-> ->]. reflexivity.
Qed.

(** [Processor.get_timestamps] for "Y": the window runs from January 1st of
    the reference's year for 365 or 366 days. It raises [ValueError] in year
    9999, where [datetime(10000, 1, 1)] is out of range, in year 1, where the
    [timestamp()] of 0001-01-01 raises, and before year 1.
    An hour [q] lies in the window exactly when its year label is the
    reference's. *)
Theorem yearly_window p :
  let y := year p in
  let s := days_from_civil y 1 1 in
  let n := 365 + (if is_leap y then 1 else 0) in
  get_timestamps "Y" p =
    (if (MINYEAR <? y) && (y <? MAXYEAR)
     then Ok {| start := s * 86400; stop := (s + n) * 86400 |}
     else Err "ValueError") /\
  (forall q, year_label q = year_label p <-> s * 86400 <= q * 3600 < (s + n) * 86400).
Proof.
  intros y s n.
  assert (Hn : days_from_civil (y + 1) 1 1 = s + n) by (unfold s, n; rewrite year_length; ring).
  split.
  - unfold get_timestamps. cbn [String.eqb Ascii.eqb Bool.eqb]. fold y.
    rewrite (datetime_ok y 1 1), (datetime_ok (y + 1) 1 1) by (cbn; lia). fold s. rewrite Hn.
    unfold timestamp.
    destruct (Z.leb_spec MINYEAR y) as [Hy|Hy], (Z.leb_spec y MAXYEAR), (Z.ltb_spec y MAXYEAR),
      (Z.leb_spec MINYEAR (y + 1)), (Z.leb_spec (y + 1) MAXYEAR), (Z.ltb_spec MINYEAR y);
      cbn [andb rbind]; try reflexivity; unfold MINYEAR, MAXYEAR in *; try lia.
    + assert (Hs1 : days_from_civil 1 1 1 + 365 <= s).
      { unfold s. pose proof (jan1_mono 2 y ltac:(lia)).
        assert (days_from_civil 2 1 1 = days_from_civil 1 1 1 + 365) by (vm_compute; reflexivity).
        lia. }
      replace (s - 1 <? days_from_civil 1 1 1) with false by (symmetry; apply Z.ltb_ge; lia).
      replace (s + n - 1 <? days_from_civil 1 1 1) with false
        by (symmetry; apply Z.ltb_ge; unfold n in *; destruct (is_leap y); lia).
      reflexivity.
    + assert (Hs : s = days_from_civil 1 1 1) by (unfold s; replace y with 1 by lia; reflexivity).
      rewrite Hs. replace (days_from_civil 1 1 1 - 1 <? days_from_civil 1 1 1) with true
        by (symmetry; apply Z.ltb_lt; lia).
      reflexivity.
  - intros q. pose proof (year_bracket q) as Hq. split.
    + unfold year_label. intros E. injection E as Ey. rewrite Ey in Hq. fold y s in Hq.
      rewrite Hn in Hq. unfold period_day_number in Hq. Z.div_mod_to_equations. lia.
    + intros H. unfold year_label. rewrite (year_of_days q y); [reflexivity|].
      rewrite Hn. unfold period_day_number. Z.div_mod_to_equations. lia.
Qed.

Lemma filter_omap_other id k keep cur x P d :
  filter (fun r => negb (row_key id k r)) (omap_rows (scan_row id k keep cur x P) d) =
  filter (fun r => negb (row_key id k r)) d.
Proof.
  induction d as [|r d IH]; [reflexivity|].
  cbn [omap_rows flat_map]. fold (omap_rows (scan_row id k keep cur x P) d).
  rewrite filter_app, IH. cbn [filter].
  destruct (row_key id k r) eqn:Hk; cbn [negb].
  - destruct (scan_row id k keep cur x P r) as [r'|] eqn:E; [|reflexivity].
    destruct (scan_row_key_label id k keep cur x P id k r r' E) as [Hk' _].
    cbn [filter]. rewrite Hk', Hk. reflexivity.
  - unfold scan_row, row_is. rewrite Hk. cbn [andb]. rewrite andb_false_r.
    cbn [filter app]. rewrite Hk. reflexivity.
Qed.

Lemma keep_nonempty k now ls : get_aggregations_to_keep k now = Ok (Some ls) -> ls <> [].
Proof.
  destruct (String.eqb_spec k "D") as [->|HD];
    [rewrite keep_D; intros E; injection E as <-; unfold shifted_periods; cbn [seq map]; discriminate|].
  destruct (String.eqb_spec k "W") as [->|HW];
    [rewrite keep_W; intros E; injection E as <-; unfold shifted_periods; cbn [seq map]; discriminate|].
  destruct (String.eqb_spec k "M") as [->|HM];
    [rewrite keep_M; intros E; injection E as <-; unfold shifted_periods; cbn [seq map]; discriminate|].
  unfold get_aggregations_to_keep.
  apply String.eqb_neq in HD, HW, HM. rewrite HD, HW, HM.
  destruct (String.eqb k "Y"); discriminate.
Qed.

Lemma not_pruned_in ls l : ls <> [] -> pruned (Some ls) l = false -> In l ls.
Proof.
  intros Hne Hp. unfold pruned in Hp. destruct ls as [|a ls']; [contradiction|].
  apply negb_false_iff, existsb_exists in Hp as (y & Hy & Hl).
  apply label_eqb_eq in Hl. subst. exact Hy.
Qed.

(** [Processor.compute_kpi_values_for_aggregation_kind] only writes rows of
    its own KPI and granularity. Every other row is kept, in order, whether
    the call succeeds or raises. *)
Theorem compute_keeps_other_rows now kpi k w :
  let w' := snd (compute_kpi_values_for_aggregation_kind now kpi k w) in
  filter (fun r => negb (row_key (unique_id kpi) k r)) (db w') =
  filter (fun r => negb (row_key (unique_id kpi) k r)) (db w).
Proof.
  intros w'.
  destruct (get_truncated_value now k) as [cur|e] eqn:Hc;
  [destruct (get_aggregations_to_keep k now) as [keep|e] eqn:Hk;
   [destruct (get_timestamps k now) as [ts|e] eqn:Ht|]|];
  try (destruct (compute_err now kpi k w) as (_ & Hd & _); [congruence|];
       unfold w'; rewrite Hd; reflexivity).
  destruct (compute_ok now kpi k w cur keep ts Hc Hk Ht) as (_ & D1 & _).
  unfold w'. rewrite D1, filter_app, filter_omap_other.
  destruct (existsb _ _); cbn [filter]; [|rewrite row_key_new_row]; cbn [negb]; apply app_nil_r.
Qed.

(** After a call whose window resolves, the current bucket of the KPI and
    granularity has a row, and every such row holds the value the KPI
    computes over the window. *)
Theorem compute_upserts_current now kpi k w ts cur :
  get_timestamps k now = Ok ts -> get_truncated_value now k = Ok cur ->
  let x := get_value kpi k (start ts) (stop ts) in
  let w' := snd (compute_kpi_values_for_aggregation_kind now kpi k w) in
  (exists r, In r (db w') /\ row_is (unique_id kpi) k cur r = true) /\
  (forall r, In r (db w') -> row_is (unique_id kpi) k cur r = true -> row_val r = x).
Proof.
  intros Ht Hc x w'.
  destruct (kind_resolves now k (timestamps_kind k now ts Ht)) as (cur' & keep & Hc' & Hk).
  rewrite Hc in Hc'. injection Hc' as <-.
  destruct (compute_ok now kpi k w cur keep ts Hc Hk Ht) as (_ & D1 & _).
  fold x in D1. fold w' in D1.
  split.
  - pose proof (rescan_stable (unique_id kpi) k keep cur x (db w) (keep_has_current now k cur keep Hc Hk))
      as Hs.
    cbv zeta in Hs. rewrite <- D1 in Hs. destruct Hs as [Hb _].
    rewrite existsb_values in Hb. apply existsb_exists in Hb as (r & Hin & Hr).
    exists r. split; [exact Hin|exact Hr].
  - intros r Hin Hr. rewrite D1 in Hin. apply in_app_or in Hin as [Hin|Hin].
    + apply in_omap_rows in Hin as (r0 & Hin0 & Hs).
      unfold scan_row in Hs. destruct (_ && _ && _); [discriminate|].
      injection Hs as Hs.
      destruct (row_is (unique_id kpi) k cur r0) eqn:Hr0.
      * rewrite (cur_in _ _ _ _ r0 Hin0 Hr0) in Hs. cbn [andb] in Hs. subst r. reflexivity.
      * rewrite andb_false_r in Hs. subst r. congruence.
    + destruct (existsb _ _); [contradiction|]. destruct Hin as [<-|[]]. reflexivity.
Qed.

(** After a Daily, Weekly or Monthly call whose window resolves, every row
    of the KPI and granularity carries a label among the buckets to keep. When
    the labels were distinct before the call, at most as many rows remain as
    there are buckets to keep. *)
Theorem compute_prunes_to_keep now kpi k w ls ts :
  get_aggregations_to_keep k now = Ok (Some ls) -> get_timestamps k now = Ok ts ->
  let w' := snd (compute_kpi_values_for_aggregation_kind now kpi k w) in
  (forall r, In r (db w') -> row_key (unique_id kpi) k r = true -> In (row_label r) ls) /\
  (NoDup (labels_of (unique_id kpi) k (db w)) ->
   (List.length (labels_of (unique_id kpi) k (db w')) <= List.length ls)%nat).
Proof.
  intros Hk Ht w'.
  destruct (kind_resolves now k (timestamps_kind k now ts Ht)) as (cur & keep & Hc & Hk').
  rewrite Hk in Hk'. injection Hk' as <-.
  pose proof (keep_nonempty k now ls Hk) as Hne.
  pose proof (keep_has_current now k cur (Some ls) Hc Hk) as Hpc.
  destruct (compute_ok now kpi k w cur (Some ls) ts Hc Hk Ht) as (_ & D1 & _).
  fold w' in D1.
  set (x := get_value kpi k (start ts) (stop ts)) in D1.
  set (S := values_of (unique_id kpi) k (db w)) in D1.
  assert (Hin_ls : forall r, In r (db w') -> row_key (unique_id kpi) k r = true -> In (row_label r) ls).
  { intros r Hin Hkr. rewrite D1 in Hin. apply in_app_or in Hin as [Hin|Hin].
    - apply in_omap_rows in Hin as (r0 & Hin0 & Hs).
      destruct (scan_row_key_label _ _ _ _ _ _ (unique_id kpi) k r0 r Hs) as [Hk0 Hl0].
      rewrite Hk0 in Hkr. rewrite Hl0. apply not_pruned_in; [exact Hne|].
      destruct (pruned (Some ls) (row_label r0)) eqn:Hp; [|reflexivity].
      unfold scan_row, S in Hs. rewrite Hkr, Hp, (key_label_in _ _ _ r0 Hin0 Hkr) in Hs. discriminate.
    - destruct (existsb _ _); [contradiction|]. destruct Hin as [<-|[]].
      apply not_pruned_in; assumption. }
  split; [exact Hin_ls|].
  intros Hnd. apply NoDup_incl_length.
  - rewrite D1. unfold labels_of. rewrite filter_app, map_app. fold (labels_of (unique_id kpi) k).
    destruct (labels_omap (unique_id kpi) k (scan_row (unique_id kpi) k (Some ls) cur x S) (db w)
                (fun r r' H => scan_row_key_label _ _ _ _ _ _ _ _ r r' H) Hnd) as [N I].
    destruct (existsb (is_cur cur) S) eqn:Hb.
    + cbn [filter map]. rewrite app_nil_r. exact N.
    + cbn [filter]. rewrite row_key_new_row. cbn [map].
      apply (Permutation_NoDup (Permutation_cons_append _ cur)).
      constructor; [|exact N].
      intros Hin. apply I, label_in_values in Hin. unfold S in Hb. congruence.
  - intros l Hl. unfold labels_of in Hl. apply in_map_iff in Hl as (r & <- & Hr).
    apply filter_In in Hr as [Hr Hkr]. exact (Hin_ls r Hr Hkr).
Qed.


(** [Processor.process_tick] to a new period, with the windows of the
    previous period resolving, returns [True]. It stores the new period and
    its day. It runs D, W and M for every KPI with the previous period,
    followed by Y for every KPI when the stored day differs from the new
    period's day. *)
Theorem tick_advances t w :
  current_period (proc w) <> t -> windows_ok (current_period (proc w)) = true ->
  let st := proc w in
  let r := process_tick t w in
  fst r = Ok true /\
  proc (snd r) = {| kpis := kpis st; current_period := t; current_day := day_label t |} /\
  exists seg, trace (snd r) = trace w ++ seg /\
    calls seg = tick_calls (kpis st) (current_period st) (current_day st) t.
Proof. apply process_tick_ok. Qed.

(** [Processor.restore_from_db] with no persisted period only reads the
    marker and returns. *)
Theorem restore_without_marker w :
  last_period w = None -> restore_from_db w = (Ok tt, log w EGetLastPeriod).
Proof.
  intros H. cbv beta iota zeta delta [restore_from_db bind get_last_current_period].
  rewrite H. reflexivity.
Qed.

(** [Processor.restore_from_db] with a persisted period whose windows
    resolve replays D, W and M for every KPI when the period differs from the
    current one. It then replays Y for every KPI when the stored day differs
    from the persisted period's day. It never changes the processor state. *)
Theorem restore_replays lp w :
  last_period w = Some lp -> windows_ok lp = true ->
  let st := proc w in
  let r := restore_from_db w in
  fst r = Ok tt /\ proc (snd r) = st /\
  exists seg, trace (snd r) = trace w ++ [EGetLastPeriod] ++ seg /\
    calls seg =
      (if lp =? current_period st then []
       else flat_map (fun kpi => [(lp, unique_id kpi, "D"); (lp, unique_id kpi, "W");
                                  (lp, unique_id kpi, "M")]) (kpis st))
      ++ (if label_eqb (current_day st) (day_label lp) then []
          else map (fun kpi => (lp, unique_id kpi, "Y")) (kpis st)).
Proof.
  intros Hl Hw st r. subst st r.
  cbv beta iota zeta delta [restore_from_db bind get_proc get_last_current_period lift ret].
  rewrite Hl. cbn [proc log trace]. rewrite trunc_D.
  assert (Hd : calls_ok
    (mfor (kpis (proc w)) (fun kpi => mfor ["D"; "W"; "M"] (fun agg_kind =>
       compute_kpi_values_for_aggregation_kind lp kpi agg_kind)))
    (flat_map (fun kpi => [(lp, unique_id kpi, "D"); (lp, unique_id kpi, "W");
                           (lp, unique_id kpi, "M")]) (kpis (proc w)))).
  { apply mfor_calls_ok. intros kpi _.
    change [(lp, unique_id kpi, "D"); (lp, unique_id kpi, "W"); (lp, unique_id kpi, "M")]
      with (flat_map (fun k => [(lp, unique_id kpi, k)]) ["D"; "W"; "M"]).
    apply mfor_calls_ok. intros k Hk. apply compute_calls.
    - destruct Hk as [<-|[<-|[<-|[]]]]; cbn; tauto.
    - apply windows_ok_kinds; [exact Hw|]. destruct Hk as [<-|[<-|[<-|[]]]]; cbn; tauto. }
  assert (Hy : calls_ok
    (mfor (kpis (proc w)) (fun kpi => compute_kpi_values_for_aggregation_kind lp kpi "Y"))
    (map (fun kpi => (lp, unique_id kpi, "Y")) (kpis (proc w)))).
  { rewrite <- flat_map_singleton. apply mfor_calls_ok. intros kpi _. apply compute_calls.
    - cbn; tauto.
    - apply windows_ok_kinds; [exact Hw|]. cbn; tauto. }
  set (w1 := log w EGetLastPeriod).
  assert (Hp1 : proc w1 = proc w) by reflexivity.
  assert (Ht1 : trace w1 = trace w ++ [EGetLastPeriod]) by reflexivity.
  clearbody w1.
  destruct (lp =? current_period (proc w)) eqn:He; cbn [negb].
  - cbn [fst snd]. rewrite Hp1.
    destruct (label_eqb (current_day (proc w)) (day_label lp)) eqn:Hc; cbn [negb].
    + cbn [fst snd]. split; [reflexivity|]. split; [exact Hp1|].
      exists []. rewrite Ht1, app_nil_r. split; reflexivity.
    + destruct (Hy w1) as (E3 & P3 & seg3 & T3 & C3).
      destruct (mfor _ _ w1) as [r3 w3]. cbn [fst snd] in E3, P3, T3 |- *.
      split; [exact E3|]. split; [congruence|].
      exists seg3. rewrite T3, Ht1, <- app_assoc. split; [reflexivity|]. exact C3.
  - destruct (Hd w1) as (E2 & P2 & seg2 & T2 & C2).
    destruct (mfor _ _ w1) as [r2 w2]. cbn [fst snd] in E2, P2, T2. subst r2.
    rewrite P2, Hp1.
    destruct (label_eqb (current_day (proc w)) (day_label lp)) eqn:Hc; cbn [negb].
    + cbn [fst snd]. split; [reflexivity|]. split; [congruence|].
      exists seg2. rewrite T2, Ht1, <- app_assoc, app_nil_r. split; [reflexivity|]. exact C2.
    + destruct (Hy w2) as (E3 & P3 & seg3 & T3 & C3).
      rewrite P2, Hp1 in *.
      destruct (mfor _ _ w2) as [r3 w3]. cbn [fst snd] in E3, P3, T3 |- *.
      split; [exact E3|]. split; [congruence|].
      exists (seg2 ++ seg3). rewrite T3, T2, Ht1, <- !app_assoc. split; [reflexivity|].
      rewrite calls_app, C2, C3. reflexivity.
Qed.

(** [Processor.get_aggregations_to_keep] keeps the 7 days ending with the
    reference's day and the 4 ISO weeks ending with its week. It keeps the 12
    calendar months ending with its month: clamping the day of month never
    skips or repeats a month. *)
Theorem keep_lists_consecutive p :
  get_aggregations_to_keep "D" p =
    Ok (Some (map (fun i => day_label (p - 24 * Z.of_nat i)) (seq 0 7))) /\
  get_aggregations_to_keep "W" p =
    Ok (Some (map (fun i => week_label (p - 168 * Z.of_nat i)) (seq 0 4))) /\
  get_aggregations_to_keep "M" p =
    Ok (Some (map (fun i => LMonth ((year p * 12 + month p - 1 - Z.of_nat i) / 12)
                                   ((year p * 12 + month p - 1 - Z.of_nat i) mod 12 + 1))
                  (seq 0 12))).
Proof.
  split; [|split].
  - rewrite keep_D. unfold shifted_periods. rewrite map_map. do 2 f_equal.
    apply map_ext. intros i. rewrite get_shifted_days_only. f_equal. lia.
  - rewrite keep_W. unfold shifted_periods. rewrite map_map. do 2 f_equal.
    apply map_ext. intros i. rewrite get_shifted_weeks. f_equal. lia.
  - rewrite keep_M. unfold shifted_periods. rewrite map_map. do 2 f_equal.
    apply map_ext. intros i. apply month_label_shift. lia.
Qed.

Lemma compute_upserts_current_witness :
  get_timestamps "D" p20240315 = Ok {| start := 1710460800; stop := 1710547200 |} /\
  get_truncated_value p20240315 "D" = Ok (LDay 2024 3 15) /\
  let w := world0 [k1] p20240315 (LDay 2024 3 15)
             [new_row 1 "D" (LDay 2024 3 15) 5; new_row 1 "D" (LDay 2024 3 1) 9] None in
  let x := get_value k1 "D" 1710460800 1710547200 in
  let w' := snd (compute_kpi_values_for_aggregation_kind p20240315 k1 "D" w) in
  (exists r, In r (db w') /\ row_is 1 "D" (LDay 2024 3 15) r = true) /\
  (forall r, In r (db w') -> row_is 1 "D" (LDay 2024 3 15) r = true -> row_val r = x).
Proof.
  assert (H1 : get_timestamps "D" p20240315 = Ok {| start := 1710460800; stop := 1710547200 |})
    by (vm_compute; reflexivity).
  assert (H2 : get_truncated_value p20240315 "D" = Ok (LDay 2024 3 15))
    by (vm_compute; reflexivity).
  split; [exact H1|]. split; [exact H2|].
  exact (compute_upserts_current p20240315 k1 "D"
           (world0 [k1] p20240315 (LDay 2024 3 15)
              [new_row 1 "D" (LDay 2024 3 15) 5; new_row 1 "D" (LDay 2024 3 1) 9] None)
           {| start := 1710460800; stop := 1710547200 |} (LDay 2024 3 15) H1 H2).
Defined.

Lemma compute_prunes_to_keep_witness :
  get_aggregations_to_keep "W" p20240315 =
    Ok (Some [LWeek 2024 11; LWeek 2024 10; LWeek 2024 9; LWeek 2024 8]) /\
  get_timestamps "W" p20240315 = Ok {| start := 1710115200; stop := 1710720000 |} /\
  let w := world0 [k1] p20240315 (LDay 2024 3 15)
             [new_row 1 "W" (LWeek 2024 11) 5; new_row 1 "W" (LWeek 2024 2) 9] None in
  let w' := snd (compute_kpi_values_for_aggregation_kind p20240315 k1 "W" w) in
  (forall r, In r (db w') -> row_key 1 "W" r = true ->
     In (row_label r) [LWeek 2024 11; LWeek 2024 10; LWeek 2024 9; LWeek 2024 8]) /\
  (NoDup (labels_of 1 "W" (db w)) ->
   (List.length (labels_of 1 "W" (db w')) <=
    List.length [LWeek 2024 11; LWeek 2024 10; LWeek 2024 9; LWeek 2024 8])%nat).
Proof.
  assert (H1 : get_aggregations_to_keep "W" p20240315 =
    Ok (Some [LWeek 2024 11; LWeek 2024 10; LWeek 2024 9; LWeek 2024 8]))
    by (vm_compute; reflexivity).
  assert (H2 : get_timestamps "W" p20240315 = Ok {| start := 1710115200; stop := 1710720000 |})
    by (vm_compute; reflexivity).
  split; [exact H1|]. split; [exact H2|].
  exact (compute_prunes_to_keep p20240315 k1 "W"
           (world0 [k1] p20240315 (LDay 2024 3 15)
              [new_row 1 "W" (LWeek 2024 11) 5; new_row 1 "W" (LWeek 2024 2) 9] None)
           [LWeek 2024 11; LWeek 2024 10; LWeek 2024 9; LWeek 2024 8]
           {| start := 1710115200; stop := 1710720000 |} H1 H2).
Defined.


Lemma tick_advances_witness :
  let w := world0 [k1] p20240315 (LDay 2024 3 15) [] None in
  current_period (proc w) <> p20240315 + 10 /\
  windows_ok (current_period (proc w)) = true /\
  let st := proc w in
  let r := process_tick (p20240315 + 10) w in
  fst r = Ok true /\
  proc (snd r) = {| kpis := kpis st; current_period := p20240315 + 10;
                    current_day := day_label (p20240315 + 10) |} /\
  exists seg, trace (snd r) = trace w ++ seg /\
    calls seg = tick_calls (kpis st) (current_period st) (current_day st) (p20240315 + 10).
Proof.
  intros w.
  assert (H1 : current_period (proc w) <> p20240315 + 10) by (cbn; lia).
  assert (H2 : windows_ok (current_period (proc w)) = true) by (vm_compute; reflexivity).
  split; [exact H1|]. split; [exact H2|].
  exact (tick_advances (p20240315 + 10) w H1 H2).
Defined.

Lemma restore_without_marker_witness :
  last_period (world0 [k1] p20240315 (LDay 2024 3 15) [] None) = None /\
  restore_from_db (world0 [k1] p20240315 (LDay 2024 3 15) [] None) =
    (Ok tt, log (world0 [k1] p20240315 (LDay 2024 3 15) [] None) EGetLastPeriod).
Proof.
  assert (H : last_period (world0 [k1] p20240315 (LDay 2024 3 15) [] None) = None)
    by reflexivity.
  split; [exact H|]. exact (restore_without_marker _ H).
Defined.

Lemma restore_replays_witness :
  let w := world0 [k1] p20240315 (LDay 2024 3 15) [] (Some (p20240315 - 24)) in
  last_period w = Some (p20240315 - 24) /\ windows_ok (p20240315 - 24) = true /\
  let st := proc w in
  let r := restore_from_db w in
  fst r = Ok tt /\ proc (snd r) = st /\
  exists seg, trace (snd r) = trace w ++ [EGetLastPeriod] ++ seg /\
    calls seg =
      (if (p20240315 - 24) =? current_period st then []
       else flat_map (fun kpi => [(p20240315 - 24, unique_id kpi, "D");
                                  (p20240315 - 24, unique_id kpi, "W");
                                  (p20240315 - 24, unique_id kpi, "M")]) (kpis st))
      ++ (if label_eqb (current_day st) (day_label (p20240315 - 24)) then []
          else map (fun kpi => (p20240315 - 24, unique_id kpi, "Y")) (kpis st)).
Proof.
  intros w.
  assert (H1 : last_period w = Some (p20240315 - 24)) by reflexivity.
  assert (H2 : windows_ok (p20240315 - 24) = true) by (vm_compute; reflexivity).
  split; [exact H1|]. split; [exact H2|].
  exact (restore_replays (p20240315 - 24) w H1 H2).
Defined.

(** A tick that raises has already stored the new period but keeps the
    previous day, so repeating the same tick does nothing. *)
Theorem tick_raise_keeps_day t w e :
  fst (process_tick t w) = Err e ->
  proc (snd (process_tick t w)) =
    {| kpis := kpis (proc w); current_period := t; current_day := current_day (proc w) |}.
Proof.
  cbv beta iota zeta delta [process_tick bind get_proc put_proc lift ret].
  destruct (current_period (proc w) =? t) eqn:He; [discriminate|].
  pose proof (mfor_keeps_proc (kpis (proc w)) (fun kpi => mfor ["D"; "W"; "M"] (fun agg_kind =>
       compute_kpi_values_for_aggregation_kind (current_period (proc w)) kpi agg_kind))
       (fun kpi => mfor_keeps_proc _ _ (fun k => compute_keeps_proc _ kpi k))
       (set_proc w {| kpis := kpis (proc w); current_period := t;
                      current_day := current_day (proc w) |})) as P2.
  destruct (mfor _ _ (set_proc w _)) as [[u|e2] w2]; cbn [fst snd proc set_proc] in P2 |- *;
    [|intros _; exact P2].
  rewrite trunc_D, P2. cbn [current_day kpis].
  destruct (negb (label_eqb (current_day (proc w)) (day_label t))); [|discriminate].
  pose proof (mfor_keeps_proc (kpis (proc w)) (fun kpi =>
       compute_kpi_values_for_aggregation_kind (current_period (proc w)) kpi "Y")
       (fun kpi => compute_keeps_proc _ kpi "Y") w2) as P3.
  destruct (mfor _ _ w2) as [[u3|e3] w3]; cbn [fst snd] in P3 |- *; [discriminate|].
  intros _. rewrite P3, P2. reflexivity.
Qed.

(** With no stored value for the KPI and granularity, a call whose window
    resolves appends exactly one row for the current bucket. Its persister
    calls are one read and one add. *)
Theorem compute_on_empty now kpi k w ts cur :
  get_timestamps k now = Ok ts -> get_truncated_value now k = Ok cur ->
  values_of (unique_id kpi) k (db w) = [] ->
  let x := get_value kpi k (start ts) (stop ts) in
  compute_kpi_values_for_aggregation_kind now kpi k w =
    (Ok tt, {| proc := proc w; db := db w ++ [new_row (unique_id kpi) k cur x];
               last_period := last_period w;
               trace := trace w ++ [ECompute now (unique_id kpi) k; EGetValues (unique_id kpi) k;
                                    EAdd (unique_id kpi) k cur x] |}).
Proof.
  intros Ht Hc Hv x.
  destruct (kind_resolves now k (timestamps_kind k now ts Ht)) as (cur' & keep & Hc' & Hk).
  cbv beta iota delta [compute_kpi_values_for_aggregation_kind bind emit lift get_kpi_values].
  rewrite Hc, Hk, Ht.
  change (values_of (unique_id kpi) k (db (log w (ECompute now (unique_id kpi) k))))
    with (values_of (unique_id kpi) k (db w)).
  rewrite Hv. cbn [mfold ret negb]. unfold add_kpi_value. cbn [log set_db db proc last_period trace].
  unfold log, set_db, db_add. cbn [db proc last_period trace]. rewrite <- !app_assoc. reflexivity.
Qed.

Lemma tick_raise_keeps_day_witness :
  let w := world0 [k1] p20241231_23 (LDay 2024 12 31) [] None in
  fst (process_tick p20250101_00 w) = Err "ValueError" /\
  proc (snd (process_tick p20250101_00 w)) =
    {| kpis := kpis (proc w); current_period := p20250101_00; current_day := current_day (proc w) |}.
Proof.
  intros w.
  assert (H : fst (process_tick p20250101_00 w) = Err "ValueError") by (vm_compute; reflexivity).
  split; [exact H|]. exact (tick_raise_keeps_day _ _ _ H).
Defined.

Lemma compute_on_empty_witness :
  let w := world0 [k1] p20240315 (LDay 2024 3 15) [new_row 2 "D" (LDay 2024 3 15) 4] None in
  get_timestamps "Y" p20240315 = Ok {| start := 1704067200; stop := 1735689600 |} /\
  get_truncated_value p20240315 "Y" = Ok (LYear 2024) /\
  values_of 1 "Y" (db w) = [] /\
  let x := get_value k1 "Y" 1704067200 1735689600 in
  compute_kpi_values_for_aggregation_kind p20240315 k1 "Y" w =
    (Ok tt, {| proc := proc w; db := db w ++ [new_row 1 "Y" (LYear 2024) x];
               last_period := last_period w;
               trace := trace w ++ [ECompute p20240315 1 "Y"; EGetValues 1 "Y";
                                    EAdd 1 "Y" (LYear 2024) x] |}).
Proof.
  intros w.
  assert (H1 : get_timestamps "Y" p20240315 = Ok {| start := 1704067200; stop := 1735689600 |})
    by (vm_compute; reflexivity).
  assert (H2 : get_truncated_value p20240315 "Y" = Ok (LYear 2024)) by (vm_compute; reflexivity).
  assert (H3 : values_of 1 "Y" (db w) = []) by reflexivity.
  split; [exact H1|]. split; [exact H2|]. split; [exact H3|].
  exact (compute_on_empty p20240315 k1 "Y" w _ _ H1 H2 H3).
Defined.
